(** * ai-chatbot.py: a shallow embedding of [ToolKit] and [Chatbot]

    The program is a single-session chatbot: [Chatbot.process_message] sends
    the conversation to a completion service, dispatches the tool calls the
    service asks for through [Chatbot._execute_tool_call], and keeps a bounded
    conversation history.

    Everything outside the file (the completion service, [requests],
    [json.loads], [psutil], [datetime], [wolframalpha], the texts of the
    exceptions the Python runtime raises) is a field of the record [Env]: a
    run of the program is a run of the model with the answers those
    collaborators gave.  The state the program mutates (the history, and the
    attributes of the [ToolKit] instance) is threaded explicitly. *)

From Stdlib Require Import String Ascii List ZArith Lia Bool DecimalString.
Import ListNotations.
Local Open Scope list_scope.
Local Open Scope string_scope.
Set Warnings "-register-all,-abstract-large-number".

(** ** Python values and exceptions *)

(** The values that flow through the program: what [json.loads] produces,
    what the tools return, what the tool catalogue is made of.  A float is
    carried by its [repr]; [PObject] is any other object, named by its type. *)
Inductive pyval : Type :=
| PNone
| PBool (b : bool)
| PInt (z : Z)
| PFloat (repr : string)
| PStr (s : string)
| PList (l : list pyval)
| PDict (d : list (string * pyval))
| PObject (type_name : string).

(** The result of running a piece of Python: it returns a value or raises an
    exception [e] of class [Exception], of which the program only ever reads
    [str(e)].  ([KeyboardInterrupt] and [SystemExit] are not [Exception]s and
    are outside the model.) *)
Inductive outcome (A : Type) : Type :=
| Returned (a : A)
| Raised (msg : string).
Arguments Returned {A} a.
Arguments Raised {A} msg.

Definition is_returned {A} (o : outcome A) : bool :=
  match o with Returned _ => true | Raised _ => false end.

(** Dictionary lookup on the association list of a [PDict] (first match). *)
Fixpoint assoc {A} (k : string) (d : list (string * A)) : option A :=
  match d with
  | [] => None
  | (k', v) :: d' => if String.eqb k k' then Some v else assoc k d'
  end.

Definition is_str (v : pyval) : bool :=
  match v with PStr _ => true | _ => false end.

(** ** The conversation *)

Record Message := { role : string; content : string }.

(** The response of the completion service, as far as the program reads it:
    [completion.choices[0].message], its [content] and its [tool_calls], and
    for each tool call [function.name] and [function.arguments]. *)
Module OpenAI.
Record Function := { name : string; arguments : string }.
Record ToolCall := { function : Function }.
Record ChatMessage :=
  { content : option string; tool_calls : option (list ToolCall) }.
Record Choice := { message : ChatMessage }.
Record Completion := { choices : list Choice }.

(** The keyword arguments of [client.chat.completions.create]. *)
Record Request :=
  { model : string;
    messages : list Message;
    tool_choice : string;
    tools : pyval;
    temperature : pyval }.
End OpenAI.

(** The response object of [requests.get]; [response.json()] may raise. *)
Record Response := { json : outcome pyval }.

(** The fields [strftime] reads from [datetime.datetime.now()]. *)
Record DateTime :=
  { year : nat; month : nat; day : nat; hour : nat; minute : nat; second : nat }.

(** An attribute the [ToolKit] instance inherits from [object] and the class
    machinery ([__class__], [__dict__], [__doc__], [__weakref__], ...):
    whether it is truthy, and what calling it with keyword arguments does.
    None of them changes the instance when called with keyword arguments
    only. *)
Record Inherited :=
  { inh_truthy : bool; inh_call : pyval -> outcome pyval }.

(** ** The environment *)

Record Env := {
  (** [self.client.chat.completions.create(...)] *)
  chat_completions_create : OpenAI.Request -> outcome OpenAI.Completion;
  (** [json.loads] *)
  json_loads : string -> outcome pyval;
  (** [requests.get(url, params=params)] *)
  requests_get : string -> list (string * pyval) -> outcome Response;
  (** [psutil.cpu_percent()], [psutil.virtual_memory().percent],
      [psutil.disk_usage(path).percent] *)
  psutil_cpu_percent : outcome pyval;
  psutil_virtual_memory_percent : outcome pyval;
  psutil_disk_usage_percent : string -> outcome pyval;
  (** [datetime.datetime.now()] *)
  datetime_now : DateTime;
  (** [wolframalpha.Client(app_id).query(q)]: the [text] of each element of
      [res.results], in order *)
  wolfram_query : pyval -> pyval -> outcome (list pyval);
  (** [str(v)] for a list, a dict or another object *)
  repr_other : pyval -> string;
  (** [str(e)] of the [TypeError] raised by [v[k]] when [v] has no such
      subscript operation *)
  subscript_error : pyval -> string;
  (** [str(e)] of the [AttributeError] raised by [v.get] on a non-dict *)
  no_get_error : pyval -> string;
  (** [str(e)] of the [TypeError] raised by calling the attribute [name] of
      the toolkit with [**args]: not callable, [args] not a mapping, a
      missing or an unexpected keyword argument *)
  call_error : string -> pyval -> string;
  (** [str(e)] of the [TypeError] raised by [sep.join] on a list with an
      element that is not a [str] *)
  join_error : list pyval -> string;
  (** the attributes that are not defined in the source of [ToolKit] *)
  inherited_getattr : string -> option Inherited
}.

(** ** Python's [str], subscripts and [join] *)

Definition str_of_nat (n : nat) : string := NilZero.string_of_uint (Nat.to_uint n).

Definition py_str (env : Env) (v : pyval) : string :=
  match v with
  | PNone => "None"
  | PBool true => "True"
  | PBool false => "False"
  | PInt z => NilZero.string_of_int (Z.to_int z)
  | PFloat r => r
  | PStr s => s
  | _ => repr_other env v
  end.

(** [v[k]] with a string key; [str(KeyError(k))] is [repr(k)], written out
    for the keys the program uses (none of them needs escaping). *)
Definition getitem_key (env : Env) (v : pyval) (k : string) : outcome pyval :=
  match v with
  | PDict d =>
      match assoc k d with
      | Some x => Returned x
      | None => Raised ("'" ++ k ++ "'")
      end
  | _ => Raised (subscript_error env v)
  end.

(** [v[0]] *)
Definition getitem_0 (env : Env) (v : pyval) : outcome pyval :=
  match v with
  | PList (x :: _) => Returned x
  | PList [] => Raised "list index out of range"
  | PStr (String c _) => Returned (PStr (String c EmptyString))
  | PStr EmptyString => Raised "string index out of range"
  | PDict _ => Raised "0"
  | _ => Raised (subscript_error env v)
  end.

(** [v[:5]] on a list, a string; other values have no slices. *)
Definition slice_5 (env : Env) (v : pyval) : outcome pyval :=
  match v with
  | PList l => Returned (PList (firstn 5 l))
  | PStr s => Returned (PStr (substring 0 5 s))
  | _ => Raised (subscript_error env v)
  end.

(** [d.get(k)] *)
Definition dict_get (env : Env) (v : pyval) (k : string) : outcome pyval :=
  match v with
  | PDict d => Returned (match assoc k d with Some x => x | None => PNone end)
  | _ => Raised (no_get_error env v)
  end.

Fixpoint join_strings (sep : string) (l : list string) : string :=
  match l with
  | [] => EmptyString
  | [s] => s
  | s :: l' => s ++ sep ++ join_strings sep l'
  end.

Fixpoint all_str (l : list pyval) : option (list string) :=
  match l with
  | [] => Some []
  | PStr s :: l' =>
      match all_str l' with Some r => Some (s :: r) | None => None end
  | _ :: _ => None
  end.

(** [sep.join(l)]: a [TypeError] unless every element is a [str]. *)
Definition str_join (env : Env) (sep : string) (l : list pyval) : outcome string :=
  match all_str l with
  | Some ss => Returned (join_strings sep ss)
  | None => Raised (join_error env l)
  end.

Definition newline : string := String (ascii_of_nat 10) EmptyString.

Definition py_truthy (v : pyval) : bool :=
  match v with
  | PNone => false
  | PBool b => b
  | PInt z => negb (Z.eqb z 0)
  | PFloat r => negb (String.eqb r "0.0" || String.eqb r "-0.0")
  | PStr s => negb (String.eqb s EmptyString)
  | PList l => match l with [] => false | _ => true end
  | PDict d => match d with [] => false | _ => true end
  | PObject _ => true
  end.

(** The items a [for] loop or a comprehension visits. *)
Fixpoint chars (s : string) : list pyval :=
  match s with
  | EmptyString => []
  | String c s' => PStr (String c EmptyString) :: chars s'
  end.

Definition iter_items (v : pyval) : list pyval :=
  match v with
  | PList l => l
  | PStr s => chars s
  | _ => []
  end.

(** ** Exceptions without state: the bodies of the tools *)

Definition obind {A B} (c : outcome A) (k : A -> outcome B) : outcome B :=
  match c with
  | Returned a => k a
  | Raised msg => Raised msg
  end.

Declare Scope outcome_scope.
Delimit Scope outcome_scope with outcome.
Notation "x <- c ;; k" := (obind c (fun x => k))
  (at level 61, c at next level, right associativity) : outcome_scope.

(** [try: body  except Exception as e: handler(str(e))] *)
Definition try_except {A} (body : outcome A) (handler : string -> A) : A :=
  match body with
  | Returned a => a
  | Raised msg => handler msg
  end.

Fixpoint omap {A B} (f : A -> outcome B) (l : list A) : outcome (list B) :=
  match l with
  | [] => Returned []
  | x :: l' => obind (f x) (fun y => obind (omap f l') (fun ys => Returned (y :: ys)))
  end.

(** ** class ToolKit *)

(** The instance attributes [__init__] sets.  The client object is carried by
    the application id it was built with. *)
Record ToolKit := { api_keys : pyval; wolfram_client : pyval }.

Section Tools.
Variable env : Env.
Local Open Scope outcome_scope.

(** ([print(data)] writes to the standard output, which is not modelled.) *)
Definition get_weather (self : ToolKit) (city : pyval) : pyval :=
  try_except
    (let url := "http://api.openweathermap.org/data/2.5/weather" in
     appid <- dict_get env (api_keys self) "WEATHER_API" ;;
     let params := [("q", city); ("appid", appid); ("units", PStr "metric")] in
     response <- requests_get env url params ;;
     data <- json response ;;
     main <- getitem_key env data "main" ;;
     temp <- getitem_key env main "temp" ;;
     weather <- getitem_key env data "weather" ;;
     weather0 <- getitem_0 env weather ;;
     desc <- getitem_key env weather0 "description" ;;
     Returned (PStr ("Current weather in " ++ py_str env city ++ ": "
                     ++ py_str env temp ++ "°C, " ++ py_str env desc)))
    (fun e => PStr ("Error fetching weather data: " ++ e)).

Definition get_news (self : ToolKit) (topic : pyval) : pyval :=
  try_except
    (let url := "https://newsapi.org/v2/top-headlines" in
     apiKey <- dict_get env (api_keys self) "NEWS_API_KEY" ;;
     let params := [("apiKey", apiKey); ("language", PStr "en"); ("q", topic)] in
     response <- requests_get env url params ;;
     data <- json response ;;
     all_articles <- getitem_key env data "articles" ;;
     articles <- slice_5 env all_articles ;;
     lines <- omap (fun article =>
                      title <- getitem_key env article "title" ;;
                      Returned ("- " ++ py_str env title))
                   (iter_items articles) ;;
     Returned (PStr (join_strings newline lines)))
    (fun e => PStr ("Error fetching news: " ++ e)).

Definition get_system_metrics (self : ToolKit) : pyval :=
  try_except
    (cpu_percent <- psutil_cpu_percent env ;;
     memory_percent <- psutil_virtual_memory_percent env ;;
     disk_usage <- psutil_disk_usage_percent env "/" ;;
     Returned (PStr ("System Metrics:" ++ newline
                     ++ "CPU: " ++ py_str env cpu_percent ++ "%" ++ newline
                     ++ "Memory: " ++ py_str env memory_percent ++ "%" ++ newline
                     ++ "Disk: " ++ py_str env disk_usage ++ "%")))
    (fun e => PStr ("Error fetching system metrics: " ++ e)).

(** [%m], [%d], [%H], [%M], [%S]: two digits; [%Y]: four. *)
Definition pad2 (n : nat) : string :=
  if Nat.ltb n 10 then "0" ++ str_of_nat n else str_of_nat n.

Definition pad4 (n : nat) : string :=
  if Nat.ltb n 10 then "000" ++ str_of_nat n
  else if Nat.ltb n 100 then "00" ++ str_of_nat n
  else if Nat.ltb n 1000 then "0" ++ str_of_nat n
  else str_of_nat n.

Definition get_current_time_and_date (self : ToolKit) : pyval :=
  let now := datetime_now env in
  PStr (pad2 (month now) ++ "/" ++ pad2 (day now) ++ "/" ++ pad4 (year now)
        ++ ", " ++ pad2 (hour now) ++ ":" ++ pad2 (minute now) ++ ":"
        ++ pad2 (second now)).

(** [next(res.results)] on an exhausted iterator raises [StopIteration],
    whose [str] is empty. *)
Definition ask_wolfram (self : ToolKit) (query : pyval) : pyval :=
  try_except
    (results <- wolfram_query env (wolfram_client self) query ;;
     match results with
     | text :: _ => Returned text
     | [] => Raised EmptyString
     end)
    (fun e => PStr ("Error querying Wolfram Alpha: " ++ e)).

(** [ToolKit.__init__]: the assignment to [self.api_keys] is done before
    [api_keys.get] can raise. *)
Definition ToolKit_init (self : ToolKit) (keys : pyval) : outcome pyval * ToolKit :=
  let self1 := {| api_keys := keys; wolfram_client := wolfram_client self |} in
  match dict_get env keys "WOLFRAM_API_KEY" with
  | Returned app_id =>
      (Returned PNone, {| api_keys := keys; wolfram_client := app_id |})
  | Raised msg => (Raised msg, self1)
  end.
End Tools.

(** [ToolKit.get_tool_definitions]: the catalogue sent to the completion
    service, as the list of dicts the source writes out. *)
Definition get_tool_definitions : pyval :=
  PList [
    PDict [
      ("type", PStr "function");
      ("function", PDict [
        ("name", PStr "get_weather");
        ("description", PStr "Get current weather information for a location");
        ("parameters", PDict [
          ("type", PStr "object");
          ("properties", PDict [
            ("city", PDict [
              ("type", PStr "string");
              ("description", PStr "The city name, e.g. London")])]);
          ("required", PList [PStr "city"])])])];
    PDict [
      ("type", PStr "function");
      ("function", PDict [
        ("name", PStr "get_news");
        ("description", PStr "Get latest news headlines, optionally filtered by topic");
        ("parameters", PDict [
          ("type", PStr "object");
          ("properties", PDict [
            ("topic", PDict [
              ("type", PStr "string");
              ("description", PStr "Optional topic to filter news")])])])])];
    PDict [
      ("type", PStr "function");
      ("function", PDict [
        ("name", PStr "get_system_metrics");
        ("description", PStr "Get current system performance metrics")])];
    PDict [
      ("type", PStr "function");
      ("function", PDict [
        ("name", PStr "get_current_time_and_date");
        ("description", PStr "Get the current time and date")])];
    PDict [
      ("type", PStr "function");
      ("function", PDict [
        ("name", PStr "ask_wolfram");
        ("description", PStr "Query Wolfram Alpha for factual information");
        ("parameters", PDict [
          ("type", PStr "object");
          ("properties", PDict [
            ("query", PDict [
              ("type", PStr "string");
              ("description", PStr "The query to send to Wolfram Alpha")])]);
          ("required", PList [PStr "query"])])])]
  ].

(** ** Attribute lookup on the toolkit: [getattr(self.toolkit, name, None)] *)

(** The functions the class body of [ToolKit] defines. *)
Inductive method :=
| m_init
| m_get_weather
| m_get_news
| m_get_system_metrics
| m_get_current_time_and_date
| m_ask_wolfram
| m_get_tool_definitions.

Inductive attribute :=
| Method (m : method)
| Data (v : pyval)
| Other (i : Inherited).

Definition defined_methods : list (string * method) :=
  [("__init__", m_init);
   ("get_weather", m_get_weather);
   ("get_news", m_get_news);
   ("get_system_metrics", m_get_system_metrics);
   ("get_current_time_and_date", m_get_current_time_and_date);
   ("ask_wolfram", m_ask_wolfram);
   ("get_tool_definitions", m_get_tool_definitions)].

(** [None] is the default of [getattr]: no attribute of that name. *)
Definition ToolKit_getattr (env : Env) (self : ToolKit) (name : string)
  : option attribute :=
  if String.eqb name "api_keys" then Some (Data (api_keys self))
  else if String.eqb name "wolfram_client" then Some (Data (PObject "Client"))
  else match assoc name defined_methods with
       | Some m => Some (Method m)
       | None => option_map Other (inherited_getattr env name)
       end.

(** The test [if not function]. *)
Definition truthy_attribute (function : option attribute) : bool :=
  match function with
  | None => false
  | Some (Method _) => true
  | Some (Data v) => py_truthy v
  | Some (Other i) => inh_truthy i
  end.

(** Binding [**args] to a signature with the parameters [required] and
    [optional] after [self]: [None] when Python raises a [TypeError]. *)
Definition bind_kwargs (required optional : list string) (args : pyval)
  : option (list (string * pyval)) :=
  match args with
  | PDict d =>
      if forallb (fun kv => existsb (String.eqb (fst kv)) (required ++ optional)%list) d
         && forallb (fun p => match assoc p d with Some _ => true | None => false end)
                    required
      then Some d
      else None
  | _ => None
  end.

Definition kwarg (d : list (string * pyval)) (p : string) : pyval :=
  match assoc p d with Some v => v | None => PNone end.

(** The call [function] with [**function_args], for an attribute of the toolkit: the value
    returned or the exception raised, and the toolkit afterwards. *)
Definition call_attribute (env : Env) (self : ToolKit) (function_name : string)
    (function : attribute) (function_args : pyval) : outcome pyval * ToolKit :=
  let type_error := (Raised (call_error env function_name function_args), self) in
  match function with
  | Data _ => type_error
  | Other i => (inh_call i function_args, self)
  | Method m =>
      match m with
      | m_init =>
          match bind_kwargs ["api_keys"] [] function_args with
          | Some d => ToolKit_init env self (kwarg d "api_keys")
          | None => type_error
          end
      | m_get_weather =>
          match bind_kwargs ["city"] [] function_args with
          | Some d => (Returned (get_weather env self (kwarg d "city")), self)
          | None => type_error
          end
      | m_get_news =>
          match bind_kwargs [] ["topic"] function_args with
          | Some d => (Returned (get_news env self (kwarg d "topic")), self)
          | None => type_error
          end
      | m_get_system_metrics =>
          match bind_kwargs [] [] function_args with
          | Some _ => (Returned (get_system_metrics env self), self)
          | None => type_error
          end
      | m_get_current_time_and_date =>
          match bind_kwargs [] [] function_args with
          | Some _ => (Returned (get_current_time_and_date env self), self)
          | None => type_error
          end
      | m_ask_wolfram =>
          match bind_kwargs ["query"] [] function_args with
          | Some d => (Returned (ask_wolfram env self (kwarg d "query")), self)
          | None => type_error
          end
      | m_get_tool_definitions =>
          match bind_kwargs [] [] function_args with
          | Some _ => (Returned get_tool_definitions, self)
          | None => type_error
          end
      end
  end.

(** ** class Chatbot *)

(** The attributes of a [Chatbot] that [process_message] reads or writes.
    ([self.client] is the field [chat_completions_create] of [Env].) *)
Record Chatbot :=
  { toolkit : ToolKit;
    conversation_history : list Message;
    system_prompt : string }.

Definition the_system_prompt : string := "
        You are a helpful assistant with access to various tools. You can:
        1. Check weather for any city
        2. Get latest news updates, optionally filtered by topic
        3. Check system performance metrics
        4. Get current date and time
        5. Query Wolfram Alpha for calculations and facts
        
        Use these tools when appropriate to provide accurate information.
        ".

(** [Chatbot.__init__], given [os.getenv] after [load_dotenv]. *)
Definition env_value (getenv : string -> option string) (k : string) : pyval :=
  match getenv k with Some s => PStr s | None => PNone end.

Definition Chatbot_init (env : Env) (getenv : string -> option string)
  : outcome Chatbot :=
  let keys :=
    PDict [("OPENAI_API_KEY", env_value getenv "OPENAI_API_KEY");
           ("WEATHER_API", env_value getenv "WEATHER_API");
           ("NEWS_API_KEY", env_value getenv "NEWS_API");
           ("WOLFRAM_API_KEY", env_value getenv "WOLFRAMALPHA_API")] in
  if negb (py_truthy (env_value getenv "OPENAI_API_KEY"))
  then Raised "OpenAI API key not found in environment variables"
  else
    Returned
      {| toolkit := snd (ToolKit_init env {| api_keys := PNone; wolfram_client := PNone |} keys);
         conversation_history := [];
         system_prompt := the_system_prompt |}.

(** *** State and exceptions

    A method of [Chatbot] runs on the object [self] and leaves it changed,
    also when it raises: what was appended to the history before an exception
    stays appended. *)
Definition M (A : Type) : Type := Chatbot -> outcome A * Chatbot.

Definition ret {A} (a : A) : M A := fun self => (Returned a, self).

Definition bind {A B} (c : M A) (k : A -> M B) : M B :=
  fun self =>
    match c self with
    | (Returned a, self') => k a self'
    | (Raised msg, self') => (Raised msg, self')
    end.

Definition lift {A} (o : outcome A) : M A := fun self => (o, self).

Definition get : M Chatbot := fun self => (Returned self, self).

(** The object after the assignment [self.conversation_history = h]. *)
Definition with_conversation_history (h : list Message) (self : Chatbot) : Chatbot :=
  {| toolkit := toolkit self;
     conversation_history := h;
     system_prompt := system_prompt self |}.

Definition set_history (h : list Message) : M unit :=
  fun self => (Returned tt, with_conversation_history h self).

(** [try: c  except Exception as e: handler(str(e))], on the state the body
    left. *)
Definition catch {A} (c : M A) (handler : string -> M A) : M A :=
  fun self =>
    match c self with
    | (Returned a, self') => (Returned a, self')
    | (Raised msg, self') => handler msg self'
    end.

Declare Scope chatbot_scope.
Delimit Scope chatbot_scope with chatbot.
Notation "x <~ c ;; k" := (bind c (fun x => k))
  (at level 61, c at next level, right associativity) : chatbot_scope.
Notation "c ;;; k" := (bind c (fun _ => k))
  (at level 61, right associativity) : chatbot_scope.

Fixpoint for_each {A B} (f : A -> M B) (l : list A) : M (list B) :=
  match l with
  | [] => ret []
  | x :: l' => bind (f x) (fun y => bind (for_each f l') (fun ys => ret (y :: ys)))
  end.

Section ChatbotMethods.
Variable env : Env.
Local Open Scope chatbot_scope.

(** [self.conversation_history.append(m)] *)
Definition history_append (m : Message) : M unit :=
  self <~ get ;;
  set_history (conversation_history self ++ [m])%list.

(** [h[-20:]] *)
Definition last_20 (h : list Message) : list Message :=
  skipn (length h - 20) h.

(** [if len(h) > 20: h = h[-20:]] *)
Definition trim_history : M unit :=
  self <~ get ;;
  if Nat.ltb 20 (length (conversation_history self))
  then set_history (last_20 (conversation_history self))
  else ret tt.

Definition _format_messages (self : Chatbot) (user_input : string)
  : list Message :=
  let messages := [{| role := "system"; content := system_prompt self |}] in
  let messages := (messages ++ conversation_history self)%list in
  let messages := (messages ++ [{| role := "user"; content := user_input |}])%list in
  messages.

(** The call of the attribute on [self.toolkit], which it may change. *)
Definition call_on_toolkit (function_name : string) (function : attribute)
    (function_args : pyval) : M pyval :=
  fun self =>
    let (result, toolkit') :=
      call_attribute env (toolkit self) function_name function function_args in
    (result,
     {| toolkit := toolkit';
        conversation_history := conversation_history self;
        system_prompt := system_prompt self |}).

(** [None], the default of [getattr], is falsy like any other falsy
    attribute: both leave through [if not function]. *)
Definition _execute_tool_call (tool_call : OpenAI.ToolCall) : M pyval :=
  let function_name := OpenAI.name (OpenAI.function tool_call) in
  function_args <~ lift (json_loads env (OpenAI.arguments (OpenAI.function tool_call))) ;;
  self <~ get ;;
  let function := ToolKit_getattr env (toolkit self) function_name in
  match function with
  | Some f =>
      if truthy_attribute function
      then catch (call_on_toolkit function_name f function_args)
                 (fun e => ret (PStr ("Error executing " ++ function_name ++ ": " ++ e)))
      else ret (PStr ("Function " ++ function_name ++ " not found. Please try again."))
  | None => ret (PStr ("Function " ++ function_name ++ " not found. Please try again."))
  end.

(** [completion.choices[0]] *)
Definition first_choice (completion : OpenAI.Completion) : outcome OpenAI.Choice :=
  match OpenAI.choices completion with
  | c :: _ => Returned c
  | [] => Raised "list index out of range"
  end.

(** [message.content or "No response generated."] *)
Definition content_or_default (content : option string) : string :=
  match content with
  | Some s => if String.eqb s EmptyString then "No response generated." else s
  | None => "No response generated."
  end.

(** The keyword arguments of the call of [chat.completions.create]. *)
Definition completion_request (self : Chatbot) (user_input : string)
  : OpenAI.Request :=
  {| OpenAI.model := "gpt-4o";
     OpenAI.messages := _format_messages self user_input;
     OpenAI.tool_choice := "auto";
     OpenAI.tools := get_tool_definitions;
     OpenAI.temperature := PFloat "0.7" |}.

(** The body of the [try] of [process_message].  [if tool_calls:] holds for a
    list that is not empty; [None] and the empty list go to the [else]. *)
Definition process_message_try (user_input : string) : M string :=
  self <~ get ;;
  completion <~ lift (chat_completions_create env (completion_request self user_input)) ;;
  choice <~ lift (first_choice completion) ;;
  let message := OpenAI.message choice in
  let tool_calls := OpenAI.tool_calls message in
  history_append {| role := "user"; content := user_input |} ;;;
  response <~ match tool_calls with
              | Some (tc :: tcs) =>
                  responses <~ for_each _execute_tool_call (tc :: tcs) ;;
                  lift (str_join env newline responses)
              | _ => ret (content_or_default (OpenAI.content message))
              end ;;
  history_append {| role := "assistant"; content := response |} ;;;
  trim_history ;;;
  ret response.

Definition process_message (user_input : string) : M string :=
  catch (process_message_try user_input)
        (fun e => ret ("Error processing message: " ++ e)).
End ChatbotMethods.

(** A session: the turns of [main]'s loop, each with the environment it ran
    in; the replies in order and the chatbot at the end. *)
Fixpoint run_turns (turns : list (Env * string)) (self : Chatbot)
  : list (outcome string) * Chatbot :=
  match turns with
  | [] => ([], self)
  | (env, user_input) :: rest =>
      let (reply, self') := process_message env user_input self in
      let (replies, self'') := run_turns rest self' in
      (reply :: replies, self'')
  end.

(** ** Concrete environments *)

Module Scenario.
(** A completion whose single choice carries [content] and [tool_calls]. *)
Definition completion (content : option string)
    (tool_calls : option (list OpenAI.ToolCall)) : OpenAI.Completion :=
  {| OpenAI.choices :=
       [{| OpenAI.message :=
             {| OpenAI.content := content; OpenAI.tool_calls := tool_calls |} |}] |}.

Definition tool_call (name arguments : string) : OpenAI.ToolCall :=
  {| OpenAI.function := {| OpenAI.name := name; OpenAI.arguments := arguments |} |}.

(** [json.loads] on the argument strings the scenarios use: the empty
    object, an object cut short after its brace, and plain words. *)
Definition loads (s : string) : outcome pyval :=
  if String.eqb s "{}" then Returned (PDict [])
  else if String.eqb s "{city"
  then Raised "Expecting property name enclosed in double quotes: line 1 column 2 (char 1)"
  else Raised "Expecting value: line 1 column 1 (char 0)".

(** The [TypeError]s of the calls the scenarios make. *)
Definition call_errors (name : string) (args : pyval) : string :=
  if String.eqb name "api_keys" then "'dict' object is not callable"
  else if String.eqb name "get_weather"
  then "ToolKit.get_weather() missing 1 required positional argument: 'city'"
  else "'" ++ name ++ "' cannot be called with these arguments".

(** Of the inherited attributes, [__weakref__] (which is [None]) and
    [__doc__] (the docstring of the class). *)
Definition inherited (name : string) : option Inherited :=
  if String.eqb name "__weakref__"
  then Some {| inh_truthy := false;
               inh_call := fun _ => Raised "'NoneType' object is not callable" |}
  else if String.eqb name "__doc__"
  then Some {| inh_truthy := true;
               inh_call := fun _ => Raised "'str' object is not callable" |}
  else None.

(** An environment in which the completion service answers [answer] and
    the weather provider answers [weather]. *)
Definition world (answer : outcome OpenAI.Completion) (weather : outcome Response)
  : Env :=
  {| chat_completions_create := fun _ => answer;
     json_loads := loads;
     requests_get := fun _ _ => weather;
     psutil_cpu_percent := Returned (PFloat "12.5");
     psutil_virtual_memory_percent := Returned (PFloat "40.1");
     psutil_disk_usage_percent := fun _ => Returned (PFloat "71.0");
     datetime_now :=
       {| year := 2024; month := 3; day := 9; hour := 14; minute := 5; second := 0 |};
     wolfram_query := fun _ _ => Returned [PStr "4"];
     repr_other := fun _ => "<object>";
     subscript_error := fun _ => "object is not subscriptable";
     no_get_error := fun _ => "object has no attribute 'get'";
     call_error := call_errors;
     join_error := fun _ => "sequence item 0: expected str instance, list found";
     inherited_getattr := inherited |}.

Definition offline : outcome Response := Raised "Connection refused".

(** The service answers with plain text. *)
Definition says (text : string) : Env :=
  world (Returned (completion (Some text) None)) offline.

(** The service asks for one tool call. *)
Definition asks (name arguments : string) : Env :=
  world (Returned (completion None (Some [tool_call name arguments]))) offline.

Definition getenv (k : string) : option string :=
  if String.eqb k "OPENAI_API_KEY" then Some "sk-test" else None.

(** The chatbot [Chatbot()] builds when only the OpenAI key is set. *)
Definition fresh : Chatbot :=
  {| toolkit :=
       {| api_keys := PDict [("OPENAI_API_KEY", PStr "sk-test");
                             ("WEATHER_API", PNone);
                             ("NEWS_API_KEY", PNone);
                             ("WOLFRAM_API_KEY", PNone)];
          wolfram_client := PNone |};
     conversation_history := [];
     system_prompt := the_system_prompt |}.

Definition numbered (n : nat) : Message :=
  {| role := "user"; content := str_of_nat n |}.

(** A chatbot whose history holds the messages numbered [0] to [n - 1]. *)
Definition with_history (n : nat) : Chatbot :=
  {| toolkit := toolkit fresh;
     conversation_history := map numbered (seq 0 n);
     system_prompt := the_system_prompt |}.
End Scenario.

(** ** Vocabulary of the statements *)

(** The two literal replies of the dispatch. *)
Definition not_found (function_name : string) : pyval :=
  PStr ("Function " ++ function_name ++ " not found. Please try again.").

Definition error_executing (function_name e : string) : pyval :=
  PStr ("Error executing " ++ function_name ++ ": " ++ e).

(** What lines 236 to 240 leave: the assistant's message appended, then the
    history cut to its last 20 entries when it is longer. *)
Definition trimmed (h : list Message) : list Message :=
  if Nat.ltb 20 (length h) then last_20 h else h.

Definition user_message (user_input : string) : Message :=
  {| role := "user"; content := user_input |}.

Definition assistant_message (response : string) : Message :=
  {| role := "assistant"; content := response |}.

Definition finish_turn (response : string) (self : Chatbot) : Chatbot :=
  with_conversation_history
    (trimmed (conversation_history self ++ [assistant_message response])%list) self.


(** [needle] occurs in [hay]. *)
Definition contains (needle hay : string) : Prop :=
  exists before after, hay = before ++ needle ++ after.









(** The three ways a turn can end: the [try] block fails before line 223 and
    the history is as it was; it fails after line 223 and the history has the
    user message and nothing else; or it runs to its end. *)
Inductive turn_end (user_input : string) (self : Chatbot)
  : outcome string -> Chatbot -> Prop :=
| failed_early msg :
    turn_end user_input self (Raised msg) self
| failed_late msg self' :
    conversation_history self'
    = (conversation_history self ++ [user_message user_input])%list ->
    turn_end user_input self (Raised msg) self'
| completed response self' :
    conversation_history self'
    = trimmed (conversation_history self
               ++ [user_message user_input; assistant_message response])%list ->
    turn_end user_input self (Returned response) self'.

(** The request of the running example of a turn that fails after the user
    message was appended: a tool call whose arguments do not decode. *)
Definition undecodable : string := "{city".

(** ** The command loop *)

(** What [main] writes: the lines it prints and the prompts of [input]. *)
Inductive output :=
| Printed (line : string)
| Prompted (prompt : string).

Definition banner : list output :=
  [Printed "Chatbot initialized. Type 'quit' to exit.";
   Printed (newline ++ "Available tools:");
   Printed "- Weather information for any city";
   Printed "- Latest news updates";
   Printed "- System performance metrics";
   Printed "- Current date and time";
   Printed "- Wolfram Alpha queries"].

Section Main.
(** [str.strip] and [str.lower] of the runtime. *)
Variables strip lower : string -> string.

(** The [while True] loop of [main] on the lines still to be read, each with
    the environment its turn runs in.  When the input is exhausted [input]
    raises [EOFError], which the handler of [main] reports. *)
Fixpoint conversation_loop (inputs : list (Env * string)) (chatbot : Chatbot)
  : list output :=
  match inputs with
  | [] =>
      [Prompted (newline ++ "You: ");
       Printed "Error initializing chatbot: EOF when reading a line"]
  | (env, line) :: rest =>
      let user_input := strip line in
      Prompted (newline ++ "You: ")
      :: (if String.eqb (lower user_input) "quit" then []
          else
            match process_message env user_input chatbot with
            | (Returned response, chatbot') =>
                Printed ("Assistant: " ++ response) :: conversation_loop rest chatbot'
            | (Raised msg, _) => [Printed ("Error initializing chatbot: " ++ msg)]
            end)
  end.

Definition main (env : Env) (getenv : string -> option string)
    (inputs : list (Env * string)) : list output :=
  match Chatbot_init env getenv with
  | Returned chatbot => (banner ++ conversation_loop inputs chatbot)%list
  | Raised msg => [Printed ("Error initializing chatbot: " ++ msg)]
  end.
End Main.

(** ** Further vocabulary *)

Definition news_url : string := "https://newsapi.org/v2/top-headlines".

(** The line [get_news] writes for a title. *)
Definition headline (env : Env) (title : pyval) : string := "- " ++ py_str env title.

Definition is_digit (c : ascii) : bool :=
  let n := nat_of_ascii c in Nat.leb 48 n && Nat.leb n 57.

Fixpoint all_digits (s : string) : bool :=
  match s with
  | EmptyString => true
  | String c s' => is_digit c && all_digits s'
  end.

(** The completion service of [env] never asks for a tool. *)
Definition no_tool_calls (env : Env) : Prop :=
  forall request completion choice,
    chat_completions_create env request = Returned completion ->
    first_choice completion = Returned choice ->
    OpenAI.tool_calls (OpenAI.message choice) = None
    \/ OpenAI.tool_calls (OpenAI.message choice) = Some [].

(** A message a turn stores: from the user or from the assistant. *)
Definition stored_role (m : Message) : Prop :=
  role m = "user" \/ role m = "assistant".

(** The environment [env] with another [json.loads]. *)
Definition with_decoder (loads : string -> outcome pyval) (env : Env) : Env :=
  {| chat_completions_create := chat_completions_create env;
     json_loads := loads;
     requests_get := requests_get env;
     psutil_cpu_percent := psutil_cpu_percent env;
     psutil_virtual_memory_percent := psutil_virtual_memory_percent env;
     psutil_disk_usage_percent := psutil_disk_usage_percent env;
     datetime_now := datetime_now env;
     wolfram_query := wolfram_query env;
     repr_other := repr_other env;
     subscript_error := subscript_error env;
     no_get_error := no_get_error env;
     call_error := call_error env;
     join_error := join_error env;
     inherited_getattr := inherited_getattr env |}.


(** What [main] writes for a turn, and when the input ends. *)
Definition turn_output (reply : string) : list output :=
  [Prompted (newline ++ "You: "); Printed ("Assistant: " ++ reply)].


(** The report of [get_system_metrics] for three samples. *)
Definition metrics_report (env : Env) (cpu memory disk : pyval) : string :=
  "System Metrics:" ++ newline
  ++ "CPU: " ++ py_str env cpu ++ "%" ++ newline
  ++ "Memory: " ++ py_str env memory ++ "%" ++ newline
  ++ "Disk: " ++ py_str env disk ++ "%".

(** [P] holds of every number below [k]. *)
Fixpoint below (P : nat -> bool) (k : nat) : bool :=
  match k with
  | 0 => true
  | S k' => P k' && below P k'
  end.

(** The text of the "not found" reply. *)
Definition not_found_text (function_name : string) : string :=
  "Function " ++ function_name ++ " not found. Please try again.".

(** ** Sanity checks of the model on concrete runs *)

Example fresh_is_constructed :
  Chatbot_init (Scenario.says "Hello") Scenario.getenv = Returned Scenario.fresh.
Proof. reflexivity. Qed.

Example missing_key_is_fatal :
  Chatbot_init (Scenario.says "Hello") (fun _ => None)
  = Raised "OpenAI API key not found in environment variables".
Proof. reflexivity. Qed.

Example time_is_formatted :
  get_current_time_and_date (Scenario.says "Hello") (toolkit Scenario.fresh)
  = PStr "03/09/2024, 14:05:00".
Proof. reflexivity. Qed.

Example weather_is_reported :
  get_weather
    (Scenario.world (Raised "unused")
       (Returned {| json := Returned (PDict [
          ("main", PDict [("temp", PInt 15)]);
          ("weather", PList [PDict [("description", PStr "clear sky")]])]) |}))
    (toolkit Scenario.fresh) (PStr "London")
  = PStr "Current weather in London: 15°C, clear sky".
Proof. reflexivity. Qed.

Example weather_without_main :
  get_weather
    (Scenario.world (Raised "unused")
       (Returned {| json := Returned (PDict [("cod", PInt 401);
                                             ("message", PStr "Invalid API key")]) |}))
    (toolkit Scenario.fresh) (PStr "London")
  = PStr "Error fetching weather data: 'main'".
Proof. reflexivity. Qed.

Example metrics_are_reported :
  get_system_metrics (Scenario.says "Hello") (toolkit Scenario.fresh)
  = PStr ("System Metrics:" ++ newline ++ "CPU: 12.5%" ++ newline
          ++ "Memory: 40.1%" ++ newline ++ "Disk: 71.0%").
Proof. reflexivity. Qed.

Example plain_turn :
  process_message (Scenario.says "Hello") "hi" Scenario.fresh
  = (Returned "Hello",
     {| toolkit := toolkit Scenario.fresh;
        conversation_history := [{| role := "user"; content := "hi" |};
                                 {| role := "assistant"; content := "Hello" |}];
        system_prompt := the_system_prompt |}).
Proof. reflexivity. Qed.

Example time_tool_turn :
  fst (process_message (Scenario.asks "get_current_time_and_date" "{}") "time?"
         Scenario.fresh)
  = Returned "03/09/2024, 14:05:00".
Proof. reflexivity. Qed.

(** ** The history across a turn *)

(** [_execute_tool_call], with the monad unfolded. *)
Lemma execute_tool_call_unfold env tool_call self :
  _execute_tool_call env tool_call self =
  let function_name := OpenAI.name (OpenAI.function tool_call) in
  match json_loads env (OpenAI.arguments (OpenAI.function tool_call)) with
  | Raised msg => (Raised msg, self)
  | Returned function_args =>
      match ToolKit_getattr env (toolkit self) function_name with
      | Some f =>
          if truthy_attribute (Some f)
          then
            let (result, toolkit') :=
              call_attribute env (toolkit self) function_name f function_args in
            (Returned match result with
                      | Returned v => v
                      | Raised e => error_executing function_name e
                      end,
             {| toolkit := toolkit';
                conversation_history := conversation_history self;
                system_prompt := system_prompt self |})
          else (Returned (not_found function_name), self)
      | None => (Returned (not_found function_name), self)
      end
  end.
Proof.
  unfold _execute_tool_call, bind, lift, get, catch, ret, call_on_toolkit.
  destruct (json_loads env _) as [args|msg]; [|reflexivity].
  destruct (ToolKit_getattr env (toolkit self) _) as [f|]; [|reflexivity].
  destruct (truthy_attribute (Some f)); [|reflexivity].
  cbv zeta.
  destruct (call_attribute env (toolkit self) (OpenAI.name (OpenAI.function tool_call))
              f args) as [[v|msg] tk]; reflexivity.
Qed.

(** Dispatch never touches the history or the system prompt. *)
Lemma execute_tool_call_history env tool_call self :
  conversation_history (snd (_execute_tool_call env tool_call self))
  = conversation_history self
  /\ system_prompt (snd (_execute_tool_call env tool_call self))
     = system_prompt self.
Proof.
  rewrite execute_tool_call_unfold. cbv zeta.
  destruct (json_loads env _) as [args|msg]; [|split; reflexivity].
  destruct (ToolKit_getattr env (toolkit self) _) as [f|]; [|split; reflexivity].
  destruct (truthy_attribute (Some f)); [|split; reflexivity].
  destruct (call_attribute env (toolkit self) (OpenAI.name (OpenAI.function tool_call))
              f args) as [r tk]; split; reflexivity.
Qed.

Lemma for_each_history env tool_calls : forall self,
  conversation_history (snd (for_each (_execute_tool_call env) tool_calls self))
  = conversation_history self.
Proof.
  induction tool_calls as [|tc tcs IH]; intros self; [reflexivity|].
  change (for_each (_execute_tool_call env) (tc :: tcs) self)
    with (bind (_execute_tool_call env tc)
            (fun y => bind (for_each (_execute_tool_call env) tcs)
                        (fun ys => ret (y :: ys))) self).
  unfold bind at 1.
  pose proof (execute_tool_call_history env tc self) as [Hh _].
  destruct (_execute_tool_call env tc self) as [[v|msg] self1]; [|exact Hh].
  unfold bind, ret. specialize (IH self1).
  destruct (for_each (_execute_tool_call env) tcs self1) as [[vs|msg] self2];
    cbn [snd] in *; congruence.
Qed.

(** The [try] block of [process_message], with the monad unfolded. *)
Lemma process_message_try_unfold env user_input self :
  process_message_try env user_input self =
  match chat_completions_create env (completion_request self user_input) with
  | Raised msg => (Raised msg, self)
  | Returned completion =>
      match first_choice completion with
      | Raised msg => (Raised msg, self)
      | Returned choice =>
          let self1 :=
            with_conversation_history
              (conversation_history self ++ [user_message user_input])%list self in
          match OpenAI.tool_calls (OpenAI.message choice) with
          | Some (tc :: tcs) =>
              match for_each (_execute_tool_call env) (tc :: tcs) self1 with
              | (Raised msg, self2) => (Raised msg, self2)
              | (Returned responses, self2) =>
                  match str_join env newline responses with
                  | Raised msg => (Raised msg, self2)
                  | Returned response => (Returned response, finish_turn response self2)
                  end
              end
          | _ =>
              let response := content_or_default (OpenAI.content (OpenAI.message choice)) in
              (Returned response, finish_turn response self1)
          end
      end
  end.
Proof.
  unfold process_message_try, bind at 1, get.
  unfold bind at 1, lift at 1.
  destruct (chat_completions_create env _) as [completion|msg]; [|reflexivity].
  unfold bind at 1, lift at 1.
  destruct (first_choice completion) as [choice|msg]; [|reflexivity].
  cbv zeta.
  assert (Hfin : forall response s,
    bind (history_append {| role := "assistant"; content := response |})
      (fun _ => bind trim_history (fun _ => ret response)) s
    = (Returned response, finish_turn response s)).
  { intros response s.
    unfold history_append, trim_history, finish_turn, trimmed, assistant_message.
    unfold bind, get, set_history, ret, with_conversation_history.
    cbn [conversation_history toolkit system_prompt].
    destruct (Nat.ltb 20 _); reflexivity. }
  unfold bind at 1, history_append at 1, bind at 1, get at 1, set_history at 1.
  fold (user_message user_input).
  destruct (OpenAI.tool_calls (OpenAI.message choice)) as [[|tc tcs]|].
  - unfold bind at 1, ret at 1. apply Hfin.
  - unfold bind at 1. unfold bind at 1.
    destruct (for_each (_execute_tool_call env) (tc :: tcs) _) as [[responses|msg] self2];
      [|reflexivity].
    unfold lift. destruct (str_join env newline responses); [apply Hfin|reflexivity].
  - unfold bind at 1, ret at 1. apply Hfin.
Qed.


Lemma process_message_try_end env user_input self :
  turn_end user_input self
    (fst (process_message_try env user_input self))
    (snd (process_message_try env user_input self)).
Proof.
  rewrite process_message_try_unfold.
  destruct (chat_completions_create env _) as [completion|msg];
    [|apply failed_early].
  destruct (first_choice completion) as [choice|msg]; [|apply failed_early].
  cbv zeta.
  assert (Hdirect : forall response,
    turn_end user_input self (Returned response)
      (finish_turn response
         (with_conversation_history
            (conversation_history self ++ [user_message user_input])%list self))).
  { intros response. apply completed. cbn. now rewrite <- app_assoc. }
  destruct (OpenAI.tool_calls (OpenAI.message choice)) as [[|tc tcs]|];
    [apply Hdirect| |apply Hdirect].
  pose proof (for_each_history env (tc :: tcs)
                (with_conversation_history
                   (conversation_history self ++ [user_message user_input])%list self))
    as Hh.
  destruct (for_each (_execute_tool_call env) (tc :: tcs) _) as [[responses|msg] self2];
    cbn [fst snd conversation_history with_conversation_history] in *.
  - destruct (str_join env newline responses) as [response|msg]; cbn [fst snd].
    + apply completed. cbn. rewrite Hh. now rewrite <- app_assoc.
    + apply failed_late. exact Hh.
  - apply failed_late. exact Hh.
Qed.


(** A turn whose [try] block runs to its end: the reply and the history. *)
Lemma completed_turn env user_input self response self' :
  process_message_try env user_input self = (Returned response, self') ->
  process_message env user_input self = (Returned response, self')
  /\ conversation_history self'
     = trimmed (conversation_history self
                ++ [user_message user_input; assistant_message response])%list.
Proof.
  intros H. split.
  - unfold process_message, catch. now rewrite H.
  - pose proof (process_message_try_end env user_input self) as E.
    rewrite H in E. cbn in E. now inversion E.
Qed.


Lemma last_20_length (h : list Message) :
  20 <= length h -> length (last_20 h) = 20.
Proof. intros H. unfold last_20. rewrite length_skipn. lia. Qed.

Lemma trimmed_length (h : list Message) : length (trimmed h) <= 20.
Proof.
  unfold trimmed. destruct (Nat.ltb_spec 20 (length h)) as [H|H]; [|exact H].
  rewrite last_20_length; lia.
Qed.

Lemma prefix_append (p s : string) : String.prefix p (p ++ s) = true.
Proof.
  induction p as [|c p IH]; cbn.
  - now destruct s.
  - destruct (ascii_dec c c) as [_|n]; [exact IH|now elim n].
Qed.


(** ** The completion service fails *)

(** C3.  When the call of the completion service raises, [process_message]
    replies "Error processing message: <message>" and the chatbot, its history
    included, is exactly as it was before the turn. *)
Theorem completion_failure_leaves_history env user_input self msg :
  chat_completions_create env (completion_request self user_input) = Raised msg ->
  process_message env user_input self
  = (Returned ("Error processing message: " ++ msg), self).
Proof.
  intros H. unfold process_message, catch, ret.
  rewrite process_message_try_unfold, H. reflexivity.
Qed.

Lemma completion_failure_leaves_history_witness :
  let env := Scenario.world (Raised "Connection error.") Scenario.offline in
  process_message env "hi" (Scenario.with_history 3)
  = (Returned "Error processing message: Connection error.", Scenario.with_history 3).
Proof.
  intros env.
  apply (completion_failure_leaves_history env "hi" (Scenario.with_history 3)
           "Connection error.").
  reflexivity.
Defined.

(** ** Trimming *)



(** ** The outgoing messages *)



(** ** A direct reply *)

(** C7, as stated, fails: content that is present but empty is not the
    reply; the fallback text is. *)
Lemma empty_content_is_replaced :
  let env := Scenario.world (Returned (Scenario.completion (Some EmptyString) None))
               Scenario.offline in
  fst (process_message env "hi" Scenario.fresh) = Returned "No response generated."
  /\ fst (process_message env "hi" Scenario.fresh) <> Returned EmptyString.
Proof. cbv zeta. split; [reflexivity|discriminate]. Qed.

(** C7, amended.  When the response carries no tool call, the reply is the
    content of the response if it is present and not empty, and
    "No response generated." if it is absent or empty; the user message and
    then the assistant message with the reply are appended to the history
    (which is then cut to its last 20 entries, so both are simply added when
    the history had at most 18). *)
Theorem direct_reply env user_input self completion choice :
  chat_completions_create env (completion_request self user_input)
  = Returned completion ->
  first_choice completion = Returned choice ->
  OpenAI.tool_calls (OpenAI.message choice) = None
  \/ OpenAI.tool_calls (OpenAI.message choice) = Some [] ->
  exists reply,
    process_message env user_input self
    = (Returned reply,
       with_conversation_history
         (trimmed (conversation_history self
                   ++ [{| role := "user"; content := user_input |};
                       {| role := "assistant"; content := reply |}])%list) self)
    /\ (forall s, OpenAI.content (OpenAI.message choice) = Some s ->
                  s <> EmptyString -> reply = s)
    /\ (OpenAI.content (OpenAI.message choice) = None
        \/ OpenAI.content (OpenAI.message choice) = Some EmptyString ->
        reply = "No response generated.")
    /\ (length (conversation_history self) <= 18 ->
        conversation_history (snd (process_message env user_input self))
        = (conversation_history self
           ++ [{| role := "user"; content := user_input |};
               {| role := "assistant"; content := reply |}])%list).
Proof.
  intros Hc Hf Ht.
  exists (content_or_default (OpenAI.content (OpenAI.message choice))).
  assert (E : process_message env user_input self
    = (Returned (content_or_default (OpenAI.content (OpenAI.message choice))),
       with_conversation_history
         (trimmed (conversation_history self
                   ++ [user_message user_input;
                       assistant_message
                         (content_or_default (OpenAI.content (OpenAI.message choice)))])%list)
         self)).
  { unfold process_message, catch. rewrite process_message_try_unfold, Hc, Hf.
    cbv zeta. unfold finish_turn, with_conversation_history.
    cbn [conversation_history toolkit system_prompt]. rewrite <- app_assoc.
    destruct Ht as [-> | ->]; reflexivity. }
  split; [exact E|]. split; [|split].
  - intros s -> Hs. unfold content_or_default.
    destruct (String.eqb_spec s EmptyString); [contradiction|reflexivity].
  - intros [-> | ->]; reflexivity.
  - intros L. rewrite E. cbn [snd conversation_history with_conversation_history].
    unfold trimmed.
    destruct (Nat.ltb_spec 20
                (length (conversation_history self
                         ++ [user_message user_input;
                             assistant_message
                               (content_or_default
                                  (OpenAI.content (OpenAI.message choice)))])%list))
      as [H|H]; [|reflexivity].
    rewrite length_app in H. cbn in H. lia.
Qed.

Lemma direct_reply_witness :
  process_message (Scenario.says "Hello") "hi" Scenario.fresh
  = (Returned "Hello",
     with_conversation_history
       [{| role := "user"; content := "hi" |};
        {| role := "assistant"; content := "Hello" |}] Scenario.fresh).
Proof.
  destruct (direct_reply (Scenario.says "Hello") "hi" Scenario.fresh
              (Scenario.completion (Some "Hello") None)
              {| OpenAI.message :=
                   {| OpenAI.content := Some "Hello"; OpenAI.tool_calls := None |} |}
              eq_refl eq_refl (or_introl eq_refl))
    as [reply [E [Hs _]]].
  rewrite E. rewrite (Hs "Hello" eq_refl); [reflexivity|discriminate].
Defined.

(** ** The tool catalogue *)




(** ** The weather tool *)

Lemma string_app_assoc (a b c : string) : (a ++ b) ++ c = a ++ b ++ c.
Proof. induction a as [|x a IH]; cbn; [reflexivity|now rewrite IH]. Qed.





(** ** Dispatch *)

Lemma execute_tool_call_found env tool_call self function_args f :
  json_loads env (OpenAI.arguments (OpenAI.function tool_call)) = Returned function_args ->
  ToolKit_getattr env (toolkit self) (OpenAI.name (OpenAI.function tool_call)) = Some f ->
  truthy_attribute (Some f) = true ->
  fst (_execute_tool_call env tool_call self)
  = Returned
      match fst (call_attribute env (toolkit self)
                   (OpenAI.name (OpenAI.function tool_call)) f function_args) with
      | Returned v => v
      | Raised e => error_executing (OpenAI.name (OpenAI.function tool_call)) e
      end.
Proof.
  intros Hj Hf Ht. rewrite execute_tool_call_unfold. cbv zeta.
  rewrite Hj, Hf, Ht.
  destruct (call_attribute env (toolkit self) _ f function_args) as [r tk].
  reflexivity.
Qed.

Lemma execute_tool_call_not_found env tool_call self function_args :
  json_loads env (OpenAI.arguments (OpenAI.function tool_call)) = Returned function_args ->
  truthy_attribute
    (ToolKit_getattr env (toolkit self) (OpenAI.name (OpenAI.function tool_call)))
  = false ->
  _execute_tool_call env tool_call self
  = (Returned (not_found (OpenAI.name (OpenAI.function tool_call))), self).
Proof.
  intros Hj Ht. rewrite execute_tool_call_unfold. cbv zeta. rewrite Hj.
  destruct (ToolKit_getattr env (toolkit self) _) as [f|]; [|reflexivity].
  now rewrite Ht.
Qed.

(** The four tools that build their reply themselves return a string. *)
Lemma builtin_tools_return_str env self function_name m function_args v :
  In m [m_get_weather; m_get_news; m_get_system_metrics; m_get_current_time_and_date] ->
  fst (call_attribute env self function_name (Method m) function_args) = Returned v ->
  is_str v = true.
Proof.
  intros Hm. cbn in Hm. unfold call_attribute.
  destruct Hm as [<-|[<-|[<-|[<-|[]]]]];
    (destruct (bind_kwargs _ _ _); cbn [fst]; [|discriminate]);
    intros [= <-];
    unfold get_weather, get_news, get_system_metrics, get_current_time_and_date,
      try_except;
    unfold obind; cbv zeta;
    repeat match goal with
           | |- context [match ?c with Returned _ => _ | Raised _ => _ end] =>
               lazymatch c with
               | match _ with Returned _ => _ | Raised _ => _ end => fail
               | _ => destruct c; cbv beta iota
               end
           end;
    reflexivity.
Qed.

(** C2, as stated, fails: arguments that do not decode make the dispatch
    raise, whatever the tool; and a found attribute can return something
    that is not a string, as [get_tool_definitions] does. *)
Lemma undecodable_arguments_escape_dispatch :
  let env := Scenario.asks "get_weather" undecodable in
  fst (_execute_tool_call env (Scenario.tool_call "get_weather" undecodable)
         Scenario.fresh)
  = Raised "Expecting property name enclosed in double quotes: line 1 column 2 (char 1)"
  /\ fst (process_message env "weather?" Scenario.fresh)
     = Returned "Error processing message: Expecting property name enclosed in double quotes: line 1 column 2 (char 1)"
  /\ fst (_execute_tool_call env (Scenario.tool_call "get_tool_definitions" "{}")
            Scenario.fresh)
     = Returned get_tool_definitions.
Proof. cbv zeta. repeat split. Qed.

(** C2, amended.  For a tool call whose arguments decode and whose name is a
    truthy attribute of the toolkit, the dispatch calls that attribute with
    the decoded arguments; it returns what the call returns, and when the call
    raises it returns "Error executing <name>: <message>": no exception leaves
    the dispatch.  The result is a string whenever the attribute is one of
    [get_weather], [get_news], [get_system_metrics] and
    [get_current_time_and_date]. *)
Theorem dispatch_converts_call_failures env tool_call self function_args f :
  let function_name := OpenAI.name (OpenAI.function tool_call) in
  json_loads env (OpenAI.arguments (OpenAI.function tool_call)) = Returned function_args ->
  ToolKit_getattr env (toolkit self) function_name = Some f ->
  truthy_attribute (Some f) = true ->
  exists result,
    fst (_execute_tool_call env tool_call self) = Returned result
    /\ (forall e,
          fst (call_attribute env (toolkit self) function_name f function_args)
          = Raised e ->
          result = PStr ("Error executing " ++ function_name ++ ": " ++ e))
    /\ (forall v,
          fst (call_attribute env (toolkit self) function_name f function_args)
          = Returned v ->
          result = v)
    /\ (forall m,
          f = Method m ->
          In m [m_get_weather; m_get_news; m_get_system_metrics;
                m_get_current_time_and_date] ->
          is_str result = true).
Proof.
  intros function_name Hj Hf Ht.
  eexists. split; [apply (execute_tool_call_found _ _ _ _ _ Hj Hf Ht)|].
  fold function_name.
  destruct (fst (call_attribute env (toolkit self) function_name f function_args))
    as [v|e] eqn:Hc.
  - split; [discriminate|]. split; [now intros ? [= <-]|].
    intros m -> Hm. exact (builtin_tools_return_str _ _ _ _ _ _ Hm Hc).
  - split; [now intros ? [= <-]|]. split; [discriminate|]. reflexivity.
Qed.

Lemma dispatch_converts_call_failures_witness :
  fst (_execute_tool_call (Scenario.says "unused")
         (Scenario.tool_call "get_weather" "{}") Scenario.fresh)
  = Returned (PStr "Error executing get_weather: ToolKit.get_weather() missing 1 required positional argument: 'city'").
Proof.
  destruct (dispatch_converts_call_failures (Scenario.says "unused")
              (Scenario.tool_call "get_weather" "{}") Scenario.fresh
              (PDict []) (Method m_get_weather) eq_refl eq_refl eq_refl)
    as [result [E [H _]]].
  rewrite E. f_equal. apply H. reflexivity.
Defined.




(** C10, as stated, fails: a name that is no attribute of the toolkit does
    not reach the "not found" branch when the arguments of the request do not
    decode; the dispatch raises before the lookup. *)
Lemma lookup_not_reached :
  let env := Scenario.asks "no_such_tool" "not json" in
  let tool_call := Scenario.tool_call "no_such_tool" "not json" in
  truthy_attribute (ToolKit_getattr env (toolkit Scenario.fresh) "no_such_tool") = false
  /\ fst (_execute_tool_call env tool_call Scenario.fresh)
     <> Returned (PStr "Function no_such_tool not found. Please try again.")
  /\ is_returned (fst (_execute_tool_call env tool_call Scenario.fresh)) = false.
Proof. cbv zeta. repeat split. discriminate. Qed.

(** C10, amended.  For a tool call whose arguments decode, the dispatch
    answers "Function <name> not found. Please try again." exactly when the
    name is not a truthy attribute of the toolkit, and otherwise calls the
    attribute, whatever it is, turning a failure of the call into
    "Error executing <name>: <message>".  So [get_tool_definitions] is found
    and called, and [api_keys], as long as the dictionary is not empty, is
    found and called, which fails and gives the "Error executing" text. *)
Theorem dispatch_is_reflective env tool_call self function_args :
  let function_name := OpenAI.name (OpenAI.function tool_call) in
  let function := ToolKit_getattr env (toolkit self) function_name in
  json_loads env (OpenAI.arguments (OpenAI.function tool_call)) = Returned function_args ->
  (truthy_attribute function = false ->
     _execute_tool_call env tool_call self
     = (Returned (PStr ("Function " ++ function_name ++ " not found. Please try again.")),
        self))
  /\ (truthy_attribute function = true ->
      exists f,
        function = Some f
        /\ fst (_execute_tool_call env tool_call self)
           = Returned
               match fst (call_attribute env (toolkit self) function_name f
                            function_args) with
               | Returned v => v
               | Raised e => PStr ("Error executing " ++ function_name ++ ": " ++ e)
               end)
  /\ (function_name = "get_tool_definitions" ->
      function = Some (Method m_get_tool_definitions)
      /\ truthy_attribute function = true
      /\ (function_args = PDict [] ->
          fst (_execute_tool_call env tool_call self) = Returned get_tool_definitions))
  /\ (function_name = "api_keys" ->
      py_truthy (api_keys (toolkit self)) = true ->
      function = Some (Data (api_keys (toolkit self)))
      /\ fst (_execute_tool_call env tool_call self)
         = Returned (PStr ("Error executing api_keys: "
                           ++ call_error env "api_keys" function_args))).
Proof.
  intros function_name function Hj.
  assert (Hfound : forall f, function = Some f -> truthy_attribute function = true ->
    fst (_execute_tool_call env tool_call self)
    = Returned
        match fst (call_attribute env (toolkit self) function_name f function_args) with
        | Returned v => v
        | Raised e => error_executing function_name e
        end).
  { intros f Hf Ht. rewrite Hf in Ht.
    exact (execute_tool_call_found _ _ _ _ _ Hj Hf Ht). }
  split; [|split; [|split]].
  - intros Ht. exact (execute_tool_call_not_found _ _ _ _ Hj Ht).
  - intros Ht. destruct function as [f|] eqn:Hf; [|discriminate].
    exists f. split; [reflexivity|]. now apply Hfound.
  - intros Hn.
    assert (Hf : function = Some (Method m_get_tool_definitions)).
    { subst function. rewrite Hn. reflexivity. }
    split; [exact Hf|]. split; [now rewrite Hf|].
    intros ->. rewrite (Hfound _ Hf) by now rewrite Hf.
    reflexivity.
  - intros Hn Hk.
    assert (Hf : function = Some (Data (api_keys (toolkit self)))).
    { subst function. rewrite Hn. reflexivity. }
    split; [exact Hf|].
    rewrite (Hfound _ Hf) by now rewrite Hf.
    rewrite Hn. reflexivity.
Qed.

Lemma dispatch_is_reflective_witness :
  fst (_execute_tool_call (Scenario.says "unused")
         (Scenario.tool_call "api_keys" "{}") Scenario.fresh)
  = Returned (PStr "Error executing api_keys: 'dict' object is not callable")
  /\ _execute_tool_call (Scenario.says "unused")
       (Scenario.tool_call "__weakref__" "{}") Scenario.fresh
     = (Returned (PStr "Function __weakref__ not found. Please try again."),
        Scenario.fresh).
Proof.
  split.
  - apply (dispatch_is_reflective (Scenario.says "unused")
             (Scenario.tool_call "api_keys" "{}") Scenario.fresh (PDict []) eq_refl);
      reflexivity.
  - apply (dispatch_is_reflective (Scenario.says "unused")
             (Scenario.tool_call "__weakref__" "{}") Scenario.fresh (PDict []) eq_refl);
      reflexivity.
Defined.

(** ** The bound on the history *)

(** A turn whose [try] block runs to its end leaves at most 20 messages. *)
Lemma completed_turn_bounded env user_input self response self' :
  process_message_try env user_input self = (Returned response, self') ->
  length (conversation_history self') <= 20.
Proof.
  intros H. apply completed_turn in H as [_ ->]. apply trimmed_length.
Qed.

(** A turn whose tool call has arguments that do not decode appends the user
    message and skips the trimming, whatever the length of the history. *)
Lemma failed_dispatch_appends env user_input self completion choice tc tcs msg :
  chat_completions_create env (completion_request self user_input)
  = Returned completion ->
  first_choice completion = Returned choice ->
  OpenAI.tool_calls (OpenAI.message choice) = Some (tc :: tcs) ->
  json_loads env (OpenAI.arguments (OpenAI.function tc)) = Raised msg ->
  process_message env user_input self
  = (Returned ("Error processing message: " ++ msg),
     with_conversation_history
       (conversation_history self ++ [user_message user_input])%list self).
Proof.
  intros Hc Hch Ht Hj. unfold process_message, catch.
  rewrite process_message_try_unfold, Hc, Hch. cbv zeta. rewrite Ht.
  change (for_each (_execute_tool_call env) (tc :: tcs) ?s)
    with (bind (_execute_tool_call env tc)
            (fun y => bind (for_each (_execute_tool_call env) tcs)
                        (fun ys => ret (y :: ys))) s).
  unfold bind at 1. rewrite execute_tool_call_unfold. cbv zeta. rewrite Hj.
  reflexivity.
Qed.

(** Such turns make the history as long as one likes. *)
Lemma failed_dispatch_grows_history k : forall self,
  length (conversation_history
            (snd (run_turns
                    (repeat (Scenario.asks "get_weather" undecodable, "weather?") k)
                    self)))
  = length (conversation_history self) + k.
Proof.
  induction k as [|k IH]; intros self; cbn [repeat run_turns]; [cbn; lia|].
  rewrite (failed_dispatch_appends (Scenario.asks "get_weather" undecodable)
             "weather?" self _ _ _ _ _ eq_refl eq_refl eq_refl eq_refl).
  specialize (IH (with_conversation_history
                    (conversation_history self ++ [user_message "weather?"])%list self)).
  destruct (run_turns _ _) as [replies self'']. cbn [snd] in *.
  rewrite IH. cbn [conversation_history with_conversation_history].
  rewrite length_app. cbn. lia.
Qed.

(** C1, on the code: after ten plain turns the history holds 20 messages; a
    further turn in which the service asks for a tool with arguments that do
    not decode returns its reply with 21 messages in the history. *)
Theorem history_exceeds_20 :
  let turns :=
    (repeat (Scenario.says "Hello", "hi") 10
     ++ [(Scenario.asks "get_weather" undecodable, "weather?")])%list in
  length (conversation_history
            (snd (run_turns (repeat (Scenario.says "Hello", "hi") 10) Scenario.fresh)))
  = 20
  /\ last (fst (run_turns turns Scenario.fresh)) (Raised EmptyString)
     = Returned "Error processing message: Expecting property name enclosed in double quotes: line 1 column 2 (char 1)"
  /\ length (conversation_history (snd (run_turns turns Scenario.fresh))) = 21.
Proof. cbv zeta. repeat split. Qed.

(** ** Beyond the claims: the toolkit under dispatch *)

Lemma getattr_init env self name f :
  ToolKit_getattr env self name = Some f ->
  name <> "__init__" ->
  f <> Method m_init.
Proof.
  unfold ToolKit_getattr, defined_methods. intros H Hn ->.
  repeat match type of H with
         | context [String.eqb name ?x] =>
             destruct (String.eqb_spec name x); cbn [assoc] in H;
             try discriminate; try contradiction
         end.
  destruct (inherited_getattr env name); discriminate.
Qed.

Lemma call_attribute_keeps_toolkit env self function_name f function_args :
  f <> Method m_init ->
  snd (call_attribute env self function_name f function_args) = self.
Proof.
  intros Hf. unfold call_attribute.
  destruct f as [m|v|i]; [|reflexivity|reflexivity].
  destruct m; try contradiction; destruct (bind_kwargs _ _ _); reflexivity.
Qed.

Lemma execute_tool_call_keeps_toolkit env tool_call self :
  OpenAI.name (OpenAI.function tool_call) <> "__init__" ->
  toolkit (snd (_execute_tool_call env tool_call self)) = toolkit self.
Proof.
  intros Hn. rewrite execute_tool_call_unfold. cbv zeta.
  destruct (json_loads env _) as [args|msg]; [|reflexivity].
  destruct (ToolKit_getattr env (toolkit self) _) as [f|] eqn:Hf; [|reflexivity].
  destruct (truthy_attribute (Some f)); [|reflexivity].
  pose proof (call_attribute_keeps_toolkit env (toolkit self)
                (OpenAI.name (OpenAI.function tool_call)) f args
                (getattr_init _ _ _ _ Hf Hn)) as Hk.
  destruct (call_attribute env (toolkit self) _ f args) as [r tk].
  exact Hk.
Qed.

Lemma for_each_keeps_toolkit env tool_calls : forall self,
  Forall (fun tc => OpenAI.name (OpenAI.function tc) <> "__init__") tool_calls ->
  toolkit (snd (for_each (_execute_tool_call env) tool_calls self)) = toolkit self.
Proof.
  induction tool_calls as [|tc tcs IH]; intros self Hall; [reflexivity|].
  inversion Hall as [|? ? Hn Hrest]; subst.
  change (for_each (_execute_tool_call env) (tc :: tcs) self)
    with (bind (_execute_tool_call env tc)
            (fun y => bind (for_each (_execute_tool_call env) tcs)
                        (fun ys => ret (y :: ys))) self).
  unfold bind at 1.
  pose proof (execute_tool_call_keeps_toolkit env tc self Hn) as Hk.
  destruct (_execute_tool_call env tc self) as [[v|msg] self1]; [|exact Hk].
  unfold bind, ret. specialize (IH self1 Hrest).
  destruct (for_each (_execute_tool_call env) tcs self1) as [[vs|msg] self2];
    cbn [snd] in *; congruence.
Qed.

(** X1.  A turn in which no requested tool call is named [__init__] leaves
    the toolkit, and with it the credentials, as it was, whatever the
    outcome of the turn. *)
Theorem turn_keeps_toolkit env user_input self :
  (forall completion choice tool_calls,
     chat_completions_create env (completion_request self user_input)
     = Returned completion ->
     first_choice completion = Returned choice ->
     OpenAI.tool_calls (OpenAI.message choice) = Some tool_calls ->
     Forall (fun tc => OpenAI.name (OpenAI.function tc) <> "__init__") tool_calls) ->
  toolkit (snd (process_message env user_input self)) = toolkit self.
Proof.
  intros H. unfold process_message, catch, ret.
  rewrite process_message_try_unfold.
  destruct (chat_completions_create env _) as [completion|msg]; [|reflexivity].
  destruct (first_choice completion) as [choice|msg] eqn:Hch; [|reflexivity].
  cbv zeta. specialize (H completion choice).
  destruct (OpenAI.tool_calls (OpenAI.message choice)) as [[|tc tcs]|];
    [reflexivity| |reflexivity].
  specialize (H (tc :: tcs) eq_refl Hch eq_refl).
  pose proof (for_each_keeps_toolkit env (tc :: tcs)
                (with_conversation_history
                   (conversation_history self ++ [user_message user_input])%list self)
                H) as Hk.
  destruct (for_each (_execute_tool_call env) (tc :: tcs) _) as [[responses|msg] self2];
    cbn [fst snd toolkit with_conversation_history] in *; [|exact Hk].
  destruct (str_join env newline responses); exact Hk.
Qed.

Lemma turn_keeps_toolkit_witness :
  toolkit (snd (process_message (Scenario.asks "get_current_time_and_date" "{}")
                  "time?" Scenario.fresh))
  = toolkit Scenario.fresh.
Proof.
  apply turn_keeps_toolkit.
  intros completion choice tool_calls Hc Hf Ht.
  injection Hc as <-. injection Hf as <-. injection Ht as <-.
  constructor; [discriminate|constructor].
Defined.

(** X2.  A tool call named [__init__] whose arguments decode to an object
    with the single key [api_keys] rebinds the credentials of the toolkit to
    the value sent, whatever it is.  When that value is a dictionary the call
    returns [None] and the client is rebuilt from its [WOLFRAM_API_KEY]; when
    it is not, the dispatch reports the failure of [get] and the credentials
    stay rebound. *)
Theorem init_rebinds_credentials env tool_call self keys :
  OpenAI.name (OpenAI.function tool_call) = "__init__" ->
  json_loads env (OpenAI.arguments (OpenAI.function tool_call))
  = Returned (PDict [("api_keys", keys)]) ->
  api_keys (toolkit (snd (_execute_tool_call env tool_call self))) = keys
  /\ match keys with
     | PDict d =>
         fst (_execute_tool_call env tool_call self) = Returned PNone
         /\ wolfram_client (toolkit (snd (_execute_tool_call env tool_call self)))
            = match assoc "WOLFRAM_API_KEY" d with Some k => k | None => PNone end
     | _ =>
         fst (_execute_tool_call env tool_call self)
         = Returned (PStr ("Error executing __init__: " ++ no_get_error env keys))
     end.
Proof.
  intros Hn Hj. rewrite execute_tool_call_unfold. cbv zeta. rewrite Hj, Hn.
  change (ToolKit_getattr env (toolkit self) "__init__") with (Some (Method m_init)).
  cbn [truthy_attribute].
  change (call_attribute env (toolkit self) "__init__" (Method m_init)
            (PDict [("api_keys", keys)]))
    with (ToolKit_init env (toolkit self) keys).
  unfold ToolKit_init, dict_get.
  destruct keys; cbn [fst snd toolkit api_keys wolfram_client]; split; try split;
    reflexivity.
Qed.

Lemma init_rebinds_credentials_witness :
  let env :=
    with_decoder (fun _ => Returned (PDict [("api_keys", PDict [])]))
      (Scenario.says "unused") in
  let after := snd (_execute_tool_call env (Scenario.tool_call "__init__" "ignored")
                      Scenario.fresh) in
  api_keys (toolkit after) = PDict []
  /\ fst (_execute_tool_call env (Scenario.tool_call "api_keys" "ignored") after)
     = Returned (PStr "Function api_keys not found. Please try again.").
Proof.
  intros env after. split; [|reflexivity].
  apply (init_rebinds_credentials env (Scenario.tool_call "__init__" "ignored")
           Scenario.fresh (PDict []) eq_refl eq_refl).
Defined.

(** ** Beyond the claims: the history across turns and sessions *)

Lemma process_message_state env user_input self :
  snd (process_message env user_input self)
  = snd (process_message_try env user_input self).
Proof.
  unfold process_message, catch, ret.
  now destruct (process_message_try env user_input self) as [[r|msg] self'].
Qed.

Lemma error_reply_prefix (msg : string) :
  String.prefix "Error processing message: " ("Error processing message: " ++ msg) = true.
Proof. apply prefix_append. Qed.

(** X3.  Every turn yields a reply and ends in one of three ways: the history
    is as it was and the reply is an "Error processing message: " text; or
    the history has gained the user message alone, and the reply is again
    such an error text; or the history has gained the user message and the
    assistant message carrying the reply, cut to its last 20 entries. *)
Theorem turn_outcomes env user_input self :
  exists reply,
    fst (process_message env user_input self) = Returned reply
    /\ let h := conversation_history self in
       let h' := conversation_history (snd (process_message env user_input self)) in
       (h' = h /\ String.prefix "Error processing message: " reply = true)
       \/ (h' = (h ++ [user_message user_input])%list
           /\ String.prefix "Error processing message: " reply = true)
       \/ h' = trimmed (h ++ [user_message user_input; assistant_message reply])%list.
Proof.
  pose proof (process_message_try_end env user_input self) as E.
  rewrite process_message_state.
  unfold process_message, catch, ret.
  destruct (process_message_try env user_input self) as [[response|msg] self'];
    cbn [fst snd] in *; eexists; (split; [reflexivity|]); cbv zeta.
  - right. right. now inversion E.
  - inversion E; subst.
    + left. split; [reflexivity|apply error_reply_prefix].
    + right. left. split; [assumption|apply error_reply_prefix].
Qed.

Lemma skipn_suffix {A} n (l : list A) : exists dropped, l = (dropped ++ skipn n l)%list.
Proof. exists (firstn n l). symmetry. apply firstn_skipn. Qed.

Lemma Forall_skipn_of {A} (P : A -> Prop) n (l : list A) :
  Forall P l -> Forall P (skipn n l).
Proof.
  intros H. destruct (skipn_suffix n l) as [d E]. rewrite E in H.
  now apply Forall_app in H.
Qed.

Lemma trimmed_Forall (P : Message -> Prop) h : Forall P h -> Forall P (trimmed h).
Proof.
  unfold trimmed, last_20. destruct (Nat.ltb 20 (length h)); [|easy].
  apply Forall_skipn_of.
Qed.

(** X4.  A turn whose [try] block runs to its end never trims away the two
    messages it added: the history then is some of the most recent earlier
    messages, at most 18 of them, followed by the user message and the
    assistant message. *)
Theorem completed_turn_keeps_new_messages env user_input self response self' :
  process_message_try env user_input self = (Returned response, self') ->
  exists dropped kept,
    conversation_history self = (dropped ++ kept)%list
    /\ length kept <= 18
    /\ conversation_history self'
       = (kept ++ [user_message user_input; assistant_message response])%list.
Proof.
  intros H. apply completed_turn in H as [_ ->].
  set (h := conversation_history self).
  unfold trimmed. rewrite length_app. cbn [length].
  destruct (Nat.ltb_spec 20 (length h + 2)) as [L|L].
  - exists (firstn (length h - 18) h), (skipn (length h - 18) h).
    split; [symmetry; apply firstn_skipn|]. split; [rewrite length_skipn; lia|].
    unfold last_20. rewrite length_app. cbn [length].
    rewrite skipn_app.
    replace (length h + 2 - 20) with (length h - 18) by lia.
    replace (length h - 18 - length h) with 0 by lia. reflexivity.
  - exists [], h. split; [reflexivity|]. split; [lia|reflexivity].
Qed.

Lemma completed_turn_keeps_new_messages_witness :
  exists dropped kept,
    conversation_history (Scenario.with_history 30) = (dropped ++ kept)%list
    /\ length kept <= 18
    /\ conversation_history
         (snd (process_message_try (Scenario.says "Hello") "hi" (Scenario.with_history 30)))
       = (kept ++ [user_message "hi"; assistant_message "Hello"])%list.
Proof.
  apply (completed_turn_keeps_new_messages (Scenario.says "Hello") "hi"
           (Scenario.with_history 30) "Hello").
  reflexivity.
Defined.

Lemma plain_turn_bounded env user_input self :
  no_tool_calls env ->
  length (conversation_history self) <= 20 ->
  length (conversation_history (snd (process_message env user_input self))) <= 20.
Proof.
  intros Hp Hl. rewrite process_message_state, process_message_try_unfold.
  destruct (chat_completions_create env _) as [completion|msg] eqn:Hc; [|exact Hl].
  destruct (first_choice completion) as [choice|msg] eqn:Hch; [|exact Hl].
  cbv zeta.
  destruct (Hp _ _ _ Hc Hch) as [-> | ->]; cbn [snd]; apply trimmed_length.
Qed.

(** X5.  In a session in which the completion service never asks for a tool,
    a history of at most 20 messages stays at most 20 after every turn,
    whether the service answers or fails. *)
Theorem session_without_tools_bounded turns : forall self,
  Forall (fun turn => no_tool_calls (fst turn)) turns ->
  length (conversation_history self) <= 20 ->
  length (conversation_history (snd (run_turns turns self))) <= 20.
Proof.
  induction turns as [|[env user_input] rest IH]; intros self Hall Hl; [exact Hl|].
  inversion Hall as [|? ? Hp Hrest]; subst. cbn [fst] in Hp.
  cbn [run_turns].
  pose proof (plain_turn_bounded env user_input self Hp Hl) as Hb.
  destruct (process_message env user_input self) as [reply self1]. cbn [snd] in Hb.
  specialize (IH self1 Hrest Hb).
  destruct (run_turns rest self1) as [replies self2]. exact IH.
Qed.

Lemma says_no_tool_calls text : no_tool_calls (Scenario.says text).
Proof.
  intros request completion choice Hc Hf.
  injection Hc as <-. injection Hf as <-. left. reflexivity.
Defined.

Lemma session_without_tools_bounded_witness :
  length (conversation_history
            (snd (run_turns (repeat (Scenario.says "Hello", "hi") 15) Scenario.fresh)))
  <= 20.
Proof.
  apply session_without_tools_bounded.
  - apply Forall_forall. intros turn Hin. apply repeat_spec in Hin. subst turn.
    apply says_no_tool_calls.
  - cbn. lia.
Defined.

Lemma turn_roles env user_input self :
  Forall stored_role (conversation_history self) ->
  Forall stored_role (conversation_history (snd (process_message env user_input self))).
Proof.
  intros H. rewrite process_message_state.
  pose proof (process_message_try_end env user_input self) as E.
  destruct (process_message_try env user_input self) as [o self1].
  cbn [fst snd] in *.
  inversion E as [msg Ho Hs|msg self' Hh Ho Hs|response self' Hh Ho Hs].
  - rewrite <- Hs. exact H.
  - rewrite Hh. apply Forall_app. split; [exact H|].
    constructor; [left; reflexivity|constructor].
  - rewrite Hh. apply trimmed_Forall, Forall_app. split; [exact H|].
    constructor; [left; reflexivity|].
    constructor; [right; reflexivity|constructor].
Qed.

(** X6.  Whatever happens in a session, the history only ever holds messages
    of the user and of the assistant: the system prompt is sent with every
    request but never stored. *)
Theorem session_roles turns : forall self,
  Forall stored_role (conversation_history self) ->
  Forall stored_role (conversation_history (snd (run_turns turns self))).
Proof.
  induction turns as [|[env user_input] rest IH]; intros self H; [exact H|].
  cbn [run_turns].
  pose proof (turn_roles env user_input self H) as H1.
  destruct (process_message env user_input self) as [reply self1]. cbn [snd] in H1.
  specialize (IH self1 H1).
  destruct (run_turns rest self1) as [replies self2]. exact IH.
Qed.

Lemma session_roles_witness :
  Forall stored_role
    (conversation_history
       (snd (run_turns [(Scenario.says "Hello", "hi");
                        (Scenario.asks "get_weather" undecodable, "weather?")]
               Scenario.fresh))).
Proof. apply session_roles. constructor. Defined.

(** ** Beyond the claims: several tool calls, arguments, construction *)

Lemma all_str_of_strings (l : list string) : all_str (map PStr l) = Some l.
Proof. induction l as [|s l IH]; cbn; [reflexivity|now rewrite IH]. Qed.

Lemma for_each_unknown env tool_calls : forall self,
  Forall (fun tc =>
            is_returned (json_loads env (OpenAI.arguments (OpenAI.function tc))) = true
            /\ ToolKit_getattr env (toolkit self) (OpenAI.name (OpenAI.function tc)) = None)
         tool_calls ->
  for_each (_execute_tool_call env) tool_calls self
  = (Returned (map PStr (map (fun tc => not_found_text (OpenAI.name (OpenAI.function tc)))
                           tool_calls)),
     self).
Proof.
  induction tool_calls as [|tc tcs IH]; intros self Hall; [reflexivity|].
  inversion Hall as [|? ? [Hj Hf] Hrest]; subst.
  change (for_each (_execute_tool_call env) (tc :: tcs) self)
    with (bind (_execute_tool_call env tc)
            (fun y => bind (for_each (_execute_tool_call env) tcs)
                        (fun ys => ret (y :: ys))) self).
  unfold bind at 1.
  destruct (json_loads env (OpenAI.arguments (OpenAI.function tc))) as [args|msg] eqn:Ha;
    [|discriminate].
  rewrite (execute_tool_call_not_found env tc self args Ha) by now rewrite Hf.
  unfold bind, ret. rewrite (IH self Hrest). reflexivity.
Qed.

(** X7.  When every tool call of a response has arguments that decode and
    names a function the toolkit does not have, the reply is one
    "Function <name> not found. Please try again." line per call, in the
    order of the calls, joined by line breaks; the toolkit is untouched and
    the turn is stored like any completed turn. *)
Theorem unknown_functions_reply env user_input self completion choice tc tcs :
  chat_completions_create env (completion_request self user_input)
  = Returned completion ->
  first_choice completion = Returned choice ->
  OpenAI.tool_calls (OpenAI.message choice) = Some (tc :: tcs) ->
  Forall (fun tc =>
            is_returned (json_loads env (OpenAI.arguments (OpenAI.function tc))) = true
            /\ ToolKit_getattr env (toolkit self) (OpenAI.name (OpenAI.function tc)) = None)
         (tc :: tcs) ->
  let reply :=
    join_strings newline
      (map (fun tc => not_found_text (OpenAI.name (OpenAI.function tc))) (tc :: tcs)) in
  process_message env user_input self
  = (Returned reply,
     with_conversation_history
       (trimmed (conversation_history self
                 ++ [user_message user_input; assistant_message reply])%list) self).
Proof.
  intros Hc Hch Ht Hall reply.
  unfold process_message, catch. rewrite process_message_try_unfold, Hc, Hch.
  cbv zeta. rewrite Ht.
  rewrite for_each_unknown by exact Hall.
  unfold str_join. rewrite all_str_of_strings. fold reply.
  unfold finish_turn, with_conversation_history.
  cbn [conversation_history toolkit system_prompt]. now rewrite <- app_assoc.
Qed.

Lemma unknown_functions_reply_witness :
  let calls := [Scenario.tool_call "delete_all_files" "{}";
                Scenario.tool_call "send_mail" "{}"] in
  let env := Scenario.world (Returned (Scenario.completion None (Some calls)))
               Scenario.offline in
  fst (process_message env "clean up" Scenario.fresh)
  = Returned ("Function delete_all_files not found. Please try again." ++ newline
              ++ "Function send_mail not found. Please try again.").
Proof.
  intros calls env.
  rewrite (unknown_functions_reply env "clean up" Scenario.fresh
             (Scenario.completion None (Some calls))
             {| OpenAI.message :=
                  {| OpenAI.content := None; OpenAI.tool_calls := Some calls |} |}
             (Scenario.tool_call "delete_all_files" "{}")
             [Scenario.tool_call "send_mail" "{}"]
             eq_refl eq_refl eq_refl).
  - reflexivity.
  - repeat constructor.
Defined.

(** X8.  [Chatbot()] fails, with "OpenAI API key not found in environment
    variables", exactly when [OPENAI_API_KEY] is unset or empty.  Otherwise it
    starts with an empty history and a toolkit holding the four credentials
    as found, the other three possibly [None]: [NEWS_API] is stored as
    [NEWS_API_KEY] and [WOLFRAMALPHA_API] as [WOLFRAM_API_KEY], from which the
    Wolfram client is built. *)
Theorem chatbot_needs_openai_key env getenv :
  (getenv "OPENAI_API_KEY" = None \/ getenv "OPENAI_API_KEY" = Some EmptyString
   <-> Chatbot_init env getenv
       = Raised "OpenAI API key not found in environment variables")
  /\ (is_returned (Chatbot_init env getenv) = true ->
      exists chatbot,
        Chatbot_init env getenv = Returned chatbot
        /\ conversation_history chatbot = []
        /\ api_keys (toolkit chatbot)
           = PDict [("OPENAI_API_KEY", env_value getenv "OPENAI_API_KEY");
                    ("WEATHER_API", env_value getenv "WEATHER_API");
                    ("NEWS_API_KEY", env_value getenv "NEWS_API");
                    ("WOLFRAM_API_KEY", env_value getenv "WOLFRAMALPHA_API")]
        /\ wolfram_client (toolkit chatbot) = env_value getenv "WOLFRAMALPHA_API").
Proof.
  unfold Chatbot_init, env_value.
  destruct (getenv "OPENAI_API_KEY") as [k|] eqn:Hk; cbn [py_truthy negb].
  - destruct (String.eqb_spec k EmptyString) as [->|Hne]; cbn [negb]; split.
    + split; [reflexivity|]. intros _. now right.
    + discriminate.
    + split; [|discriminate]. intros [H|H]; [discriminate|]. now injection H.
    + intros _. eexists. split; [reflexivity|]. repeat split.
  - split; [|discriminate]. split; [reflexivity|]. intros _. now left.
Qed.

Lemma chatbot_needs_openai_key_witness :
  exists chatbot,
    Chatbot_init (Scenario.says "unused") Scenario.getenv = Returned chatbot
    /\ conversation_history chatbot = []
    /\ api_keys (toolkit chatbot)
       = PDict [("OPENAI_API_KEY", PStr "sk-test"); ("WEATHER_API", PNone);
                ("NEWS_API_KEY", PNone); ("WOLFRAM_API_KEY", PNone)]
    /\ wolfram_client (toolkit chatbot) = PNone.
Proof.
  apply (chatbot_needs_openai_key (Scenario.says "unused") Scenario.getenv).
  reflexivity.
Defined.

Lemma bind_kwargs_unexpected required optional d k v :
  In (k, v) d ->
  ~ In k (required ++ optional)%list ->
  bind_kwargs required optional (PDict d) = None.
Proof.
  intros Hin Hk. unfold bind_kwargs.
  destruct (forallb _ d) eqn:Hall; [|reflexivity].
  exfalso. apply Hk.
  assert (H := proj1 (forallb_forall _ d) Hall (k, v) Hin). cbn [fst] in H.
  apply existsb_exists in H as [p [Hp E]].
  apply String.eqb_eq in E. now subst p.
Qed.

(** X9.  A request for [get_weather] reaches the tool only with an object
    that has the key [city] and no other key.  Arguments that are not an
    object, an object without [city], and an object with any further key are
    all answered "Error executing get_weather: <message>", with the message
    of the [TypeError] of the call, and the toolkit is left as it was. *)
Theorem weather_arguments env tool_call self function_args :
  OpenAI.name (OpenAI.function tool_call) = "get_weather" ->
  json_loads env (OpenAI.arguments (OpenAI.function tool_call)) = Returned function_args ->
  let rejected :=
    _execute_tool_call env tool_call self
    = (Returned (PStr ("Error executing get_weather: "
                       ++ call_error env "get_weather" function_args)), self) in
  (forall city,
     function_args = PDict [("city", city)] ->
     _execute_tool_call env tool_call self
     = (Returned (get_weather env (toolkit self) city), self))
  /\ ((forall d, function_args <> PDict d) -> rejected)
  /\ (forall d, function_args = PDict d -> assoc "city" d = None -> rejected)
  /\ (forall d k v, function_args = PDict d -> In (k, v) d -> k <> "city" -> rejected).
Proof.
  intros Hn Hj rejected.
  assert (E : _execute_tool_call env tool_call self
    = (Returned match fst (call_attribute env (toolkit self) "get_weather"
                             (Method m_get_weather) function_args) with
                | Returned v => v
                | Raised e => error_executing "get_weather" e
                end,
       with_conversation_history (conversation_history self) 
         {| toolkit := snd (call_attribute env (toolkit self) "get_weather"
                              (Method m_get_weather) function_args);
            conversation_history := conversation_history self;
            system_prompt := system_prompt self |})).
  { rewrite execute_tool_call_unfold. cbv zeta. rewrite Hj, Hn.
    change (ToolKit_getattr env (toolkit self) "get_weather")
      with (Some (Method m_get_weather)).
    cbn [truthy_attribute].
    now destruct (call_attribute env (toolkit self) "get_weather"
                    (Method m_get_weather) function_args). }
  assert (R : bind_kwargs ["city"] [] function_args = None -> rejected).
  { intros Hb. unfold rejected. rewrite E. unfold call_attribute. rewrite Hb.
    destruct self; reflexivity. }
  split; [|split; [|split]].
  - intros city ->. rewrite E. destruct self; reflexivity.
  - intros Hd. apply R. destruct function_args; try reflexivity.
    now elim (Hd d).
  - intros d -> Hc. apply R. unfold bind_kwargs.
    cbn [forallb]. rewrite Hc. now rewrite andb_false_r.
  - intros d k v -> Hin Hk. apply R.
    apply (bind_kwargs_unexpected _ _ _ k v Hin).
    cbn. intros [H|[]]. now apply Hk.
Qed.

Lemma weather_arguments_witness :
  _execute_tool_call (Scenario.says "unused") (Scenario.tool_call "get_weather" "{}")
    Scenario.fresh
  = (Returned (PStr "Error executing get_weather: ToolKit.get_weather() missing 1 required positional argument: 'city'"),
     Scenario.fresh).
Proof.
  apply (weather_arguments (Scenario.says "unused")
           (Scenario.tool_call "get_weather" "{}") Scenario.fresh (PDict [])
           eq_refl eq_refl)
    with (d := []); reflexivity.
Defined.

(** ** Beyond the claims: the other tools *)

Lemma omap_titles env (articles titles : list pyval) :
  Forall2 (fun article title => getitem_key env article "title" = Returned title)
          articles titles ->
  omap (fun article =>
          obind (getitem_key env article "title")
                (fun title => Returned ("- " ++ py_str env title)))
       articles
  = Returned (map (headline env) titles).
Proof.
  induction 1 as [|article title articles titles Ht _ IH]; [reflexivity|].
  cbn [omap map]. rewrite Ht. cbn [obind]. rewrite IH. reflexivity.
Qed.

Lemma omap_bad_title env (good : list pyval) bad rest titles msg :
  Forall2 (fun article title => getitem_key env article "title" = Returned title)
          good titles ->
  getitem_key env bad "title" = Raised msg ->
  omap (fun article =>
          obind (getitem_key env article "title")
                (fun title => Returned ("- " ++ py_str env title)))
       (good ++ bad :: rest)
  = Raised msg.
Proof.
  intros Hg Hb.
  induction Hg as [|article title articles titles Ht _ IH]; cbn [app omap].
  - now rewrite Hb.
  - rewrite Ht. cbn [obind]. now rewrite IH.
Qed.

(** X10.  When the news provider answers with an object whose [articles] is a
    list, [get_news] reads the first five articles only: if each of them has a
    title, the reply is their titles in order, one "- <title>" line each, at
    most five lines, whatever the later articles are; no article gives the
    empty string. *)
Theorem news_headlines env self topic key response d articles titles :
  dict_get env (api_keys self) "NEWS_API_KEY" = Returned key ->
  requests_get env news_url [("apiKey", key); ("language", PStr "en"); ("q", topic)]
  = Returned response ->
  json response = Returned (PDict d) ->
  assoc "articles" d = Some (PList articles) ->
  Forall2 (fun article title => getitem_key env article "title" = Returned title)
          (firstn 5 articles) titles ->
  get_news env self topic = PStr (join_strings newline (map (headline env) titles))
  /\ length titles <= 5
  /\ (articles = [] -> get_news env self topic = PStr EmptyString).
Proof.
  intros Hk Hr Hj Ha Ht.
  assert (E : get_news env self topic
              = PStr (join_strings newline (map (headline env) titles))).
  { unfold get_news, try_except. fold news_url. cbv zeta.
    rewrite Hk. cbn [obind]. rewrite Hr. cbn [obind]. rewrite Hj. cbn [obind].
    unfold getitem_key at 1. rewrite Ha. cbn [obind slice_5 iter_items].
    rewrite (omap_titles env _ _ Ht). reflexivity. }
  split; [exact E|]. split.
  - apply Forall2_length in Ht. rewrite <- Ht, length_firstn. lia.
  - intros ->. rewrite E. cbn in Ht. inversion Ht. reflexivity.
Qed.

Lemma news_headlines_witness :
  let article (n : Z) := PDict [("title", PInt n)] in
  let articles := [article 1; article 2; article 3; article 4; article 5;
                   PDict [("untitled", PNone)]; article 7]%Z in
  get_news
    (Scenario.world (Raised "unused")
       (Returned {| json := Returned (PDict [("articles", PList articles)]) |}))
    (toolkit Scenario.fresh) PNone
  = PStr ("- 1" ++ newline ++ "- 2" ++ newline ++ "- 3" ++ newline ++ "- 4"
          ++ newline ++ "- 5").
Proof.
  intros article articles.
  apply (news_headlines
           (Scenario.world (Raised "unused")
              (Returned {| json := Returned (PDict [("articles", PList articles)]) |}))
           (toolkit Scenario.fresh) PNone PNone
           {| json := Returned (PDict [("articles", PList articles)]) |}
           [("articles", PList articles)] articles
           [PInt 1; PInt 2; PInt 3; PInt 4; PInt 5]%Z
           eq_refl eq_refl eq_refl eq_refl).
  repeat constructor.
Defined.

(** X11.  [get_news] turns every failure into "Error fetching news: <message>":
    a failing request, a response that does not decode, a response object
    without [articles] (the message is then the quoted key), and an article
    without a usable title among the first five, which discards the titles
    read before it. *)
Theorem news_failures env self topic key :
  dict_get env (api_keys self) "NEWS_API_KEY" = Returned key ->
  let request :=
    requests_get env news_url [("apiKey", key); ("language", PStr "en"); ("q", topic)] in
  (forall msg,
     request = Raised msg ->
     get_news env self topic = PStr ("Error fetching news: " ++ msg))
  /\ (forall response msg,
        request = Returned response ->
        json response = Raised msg ->
        get_news env self topic = PStr ("Error fetching news: " ++ msg))
  /\ (forall response d,
        request = Returned response ->
        json response = Returned (PDict d) ->
        assoc "articles" d = None ->
        get_news env self topic = PStr "Error fetching news: 'articles'")
  /\ (forall response d good titles bad rest msg,
        request = Returned response ->
        json response = Returned (PDict d) ->
        assoc "articles" d = Some (PList (good ++ bad :: rest)) ->
        length good < 5 ->
        Forall2 (fun article title => getitem_key env article "title" = Returned title)
                good titles ->
        getitem_key env bad "title" = Raised msg ->
        get_news env self topic = PStr ("Error fetching news: " ++ msg)).
Proof.
  intros Hk request. subst request.
  repeat split.
  - intros msg Hr. unfold get_news, try_except. fold news_url. cbv zeta.
    rewrite Hk. cbn [obind]. now rewrite Hr.
  - intros response msg Hr Hj. unfold get_news, try_except. fold news_url. cbv zeta.
    rewrite Hk. cbn [obind]. rewrite Hr. cbn [obind]. now rewrite Hj.
  - intros response d Hr Hj Ha. unfold get_news, try_except. fold news_url. cbv zeta.
    rewrite Hk. cbn [obind]. rewrite Hr. cbn [obind]. rewrite Hj. cbn [obind].
    unfold getitem_key at 1. now rewrite Ha.
  - intros response d good titles bad rest msg Hr Hj Ha Hl Hg Hb.
    unfold get_news, try_except. fold news_url. cbv zeta.
    rewrite Hk. cbn [obind]. rewrite Hr. cbn [obind]. rewrite Hj. cbn [obind].
    unfold getitem_key at 1. rewrite Ha. cbn [obind slice_5 iter_items].
    rewrite firstn_app.
    rewrite (firstn_all2 good) by lia.
    destruct (5 - length good) as [|n] eqn:En; [lia|].
    cbn [firstn].
    now rewrite (omap_bad_title env good bad (firstn n rest) titles msg Hg Hb).
Qed.

Lemma news_failures_witness :
  get_news
    (Scenario.world (Raised "unused")
       (Returned {| json := Returned (PDict [("status", PStr "error")]) |}))
    (toolkit Scenario.fresh) (PStr "rocq")
  = PStr "Error fetching news: 'articles'".
Proof.
  apply (news_failures
           (Scenario.world (Raised "unused")
              (Returned {| json := Returned (PDict [("status", PStr "error")]) |}))
           (toolkit Scenario.fresh) (PStr "rocq") PNone eq_refl)
    with (response := {| json := Returned (PDict [("status", PStr "error")]) |})
         (d := [("status", PStr "error")]);
    reflexivity.
Defined.

(** X12.  [get_system_metrics] reports the three samples under its header
    when all of them are taken, and otherwise answers
    "Error fetching system metrics: <message>" with the message of the first
    sample that failed, in the order CPU, memory, disk. *)
Theorem system_metrics_report env self :
  (forall cpu memory disk,
     psutil_cpu_percent env = Returned cpu ->
     psutil_virtual_memory_percent env = Returned memory ->
     psutil_disk_usage_percent env "/" = Returned disk ->
     get_system_metrics env self = PStr (metrics_report env cpu memory disk)
     /\ contains (py_str env cpu) (metrics_report env cpu memory disk)
     /\ contains (py_str env memory) (metrics_report env cpu memory disk)
     /\ contains (py_str env disk) (metrics_report env cpu memory disk))
  /\ (forall msg,
        psutil_cpu_percent env = Raised msg ->
        get_system_metrics env self = PStr ("Error fetching system metrics: " ++ msg))
  /\ (forall cpu msg,
        psutil_cpu_percent env = Returned cpu ->
        psutil_virtual_memory_percent env = Raised msg ->
        get_system_metrics env self = PStr ("Error fetching system metrics: " ++ msg))
  /\ (forall cpu memory msg,
        psutil_cpu_percent env = Returned cpu ->
        psutil_virtual_memory_percent env = Returned memory ->
        psutil_disk_usage_percent env "/" = Raised msg ->
        get_system_metrics env self = PStr ("Error fetching system metrics: " ++ msg)).
Proof.
  unfold get_system_metrics, try_except, obind. repeat split.
  - now rewrite H, H0, H1.
  - unfold metrics_report.
    exists ("System Metrics:" ++ newline ++ "CPU: "),
           ("%" ++ newline ++ "Memory: " ++ py_str env memory ++ "%" ++ newline
            ++ "Disk: " ++ py_str env disk ++ "%").
    now rewrite !string_app_assoc.
  - unfold metrics_report.
    exists ("System Metrics:" ++ newline ++ "CPU: " ++ py_str env cpu ++ "%"
            ++ newline ++ "Memory: "),
           ("%" ++ newline ++ "Disk: " ++ py_str env disk ++ "%").
    now rewrite !string_app_assoc.
  - unfold metrics_report.
    exists ("System Metrics:" ++ newline ++ "CPU: " ++ py_str env cpu ++ "%"
            ++ newline ++ "Memory: " ++ py_str env memory ++ "%" ++ newline
            ++ "Disk: "), "%".
    now rewrite !string_app_assoc.
  - intros msg H. now rewrite H.
  - intros cpu msg H H0. now rewrite H, H0.
  - intros cpu memory msg H H0 H1. now rewrite H, H0, H1.
Qed.

Lemma system_metrics_report_witness :
  get_system_metrics (Scenario.says "unused") (toolkit Scenario.fresh)
  = PStr (metrics_report (Scenario.says "unused")
            (PFloat "12.5") (PFloat "40.1") (PFloat "71.0")).
Proof.
  apply (system_metrics_report (Scenario.says "unused") (toolkit Scenario.fresh));
    reflexivity.
Defined.

Lemma string_length_append (a b : string) :
  String.length (a ++ b) = String.length a + String.length b.
Proof. induction a as [|c a IH]; cbn; [reflexivity|now rewrite IH]. Qed.

Lemma below_spec (P : nat -> bool) k n : below P k = true -> n < k -> P n = true.
Proof.
  induction k as [|k IH]; intros E H; [lia|].
  cbn [below] in E. apply andb_prop in E as [Ek Eb].
  destruct (Nat.eq_dec n k) as [->|Hne]; [exact Ek|].
  apply IH; [exact Eb|lia].
Qed.

Lemma pad2_shape n :
  n < 100 -> String.length (pad2 n) = 2 /\ all_digits (pad2 n) = true.
Proof.
  intros H.
  assert (Hn := below_spec
                  (fun n => Nat.eqb (String.length (pad2 n)) 2 && all_digits (pad2 n))
                  100 n ltac:(vm_compute; reflexivity) H).
  cbv beta in Hn. apply andb_prop in Hn as [Hl Hd]. now apply Nat.eqb_eq in Hl.
Qed.

Lemma pad4_shape n :
  n < 10000 -> String.length (pad4 n) = 4 /\ all_digits (pad4 n) = true.
Proof.
  intros H.
  assert (Hn := below_spec
                  (fun n => Nat.eqb (String.length (pad4 n)) 4 && all_digits (pad4 n))
                  10000 n ltac:(vm_compute; reflexivity) H).
  cbv beta in Hn. apply andb_prop in Hn as [Hl Hd]. now apply Nat.eqb_eq in Hl.
Qed.

(** X13.  For a clock reading within the range of [datetime] (years of four
    digits), [get_current_time_and_date] has the shape MM/DD/YYYY, HH:MM:SS:
    six groups of decimal digits, of 2, 2, 4, 2, 2 and 2 digits, with those
    separators, 20 characters in all. *)
Theorem time_format env self :
  let now := datetime_now env in
  1000 <= year now < 10000 ->
  1 <= month now <= 12 ->
  1 <= day now <= 31 ->
  hour now <= 23 ->
  minute now <= 59 ->
  second now <= 59 ->
  exists mm dd yyyy hh mi ss,
    get_current_time_and_date env self
    = PStr (mm ++ "/" ++ dd ++ "/" ++ yyyy ++ ", " ++ hh ++ ":" ++ mi ++ ":" ++ ss)
    /\ map String.length [mm; dd; yyyy; hh; mi; ss] = [2; 2; 4; 2; 2; 2]
    /\ forallb all_digits [mm; dd; yyyy; hh; mi; ss] = true
    /\ String.length (mm ++ "/" ++ dd ++ "/" ++ yyyy ++ ", " ++ hh ++ ":" ++ mi ++ ":" ++ ss)
       = 20.
Proof.
  intros now Hy Hm Hd Hh Hmi Hs.
  destruct (pad2_shape (month now)) as [L1 D1]; [lia|].
  destruct (pad2_shape (day now)) as [L2 D2]; [lia|].
  destruct (pad4_shape (year now)) as [L3 D3]; [apply Hy|].
  destruct (pad2_shape (hour now)) as [L4 D4]; [lia|].
  destruct (pad2_shape (minute now)) as [L5 D5]; [lia|].
  destruct (pad2_shape (second now)) as [L6 D6]; [lia|].
  exists (pad2 (month now)), (pad2 (day now)), (pad4 (year now)),
         (pad2 (hour now)), (pad2 (minute now)), (pad2 (second now)).
  split; [reflexivity|]. split; [|split].
  - cbn [map]. now rewrite L1, L2, L3, L4, L5, L6.
  - cbn [forallb]. now rewrite D1, D2, D3, D4, D5, D6.
  - rewrite !string_length_append, L1, L2, L3, L4, L5, L6. reflexivity.
Qed.

Lemma time_format_witness :
  exists mm dd yyyy hh mi ss,
    get_current_time_and_date (Scenario.says "unused") (toolkit Scenario.fresh)
    = PStr (mm ++ "/" ++ dd ++ "/" ++ yyyy ++ ", " ++ hh ++ ":" ++ mi ++ ":" ++ ss)
    /\ map String.length [mm; dd; yyyy; hh; mi; ss] = [2; 2; 4; 2; 2; 2]
    /\ forallb all_digits [mm; dd; yyyy; hh; mi; ss] = true
    /\ String.length (mm ++ "/" ++ dd ++ "/" ++ yyyy ++ ", " ++ hh ++ ":" ++ mi ++ ":" ++ ss)
       = 20.
Proof.
  apply (time_format (Scenario.says "unused") (toolkit Scenario.fresh));
    cbn [datetime_now Scenario.says Scenario.world year month day hour minute second];
    try lia.
  split; [apply Nat.leb_le|apply Nat.ltb_lt]; vm_compute; reflexivity.
Defined.

(** ** Beyond the claims: a tool result that is not a string *)

(** X14.  When the only tool call of a response is dispatched and returns a
    value that is not a string, joining the results fails: the reply is
    "Error processing message: <message of the join>", no assistant message
    is stored and the history is left with the user message alone. *)
Theorem non_string_result_fails_turn env user_input self completion choice tc v self2 :
  chat_completions_create env (completion_request self user_input)
  = Returned completion ->
  first_choice completion = Returned choice ->
  OpenAI.tool_calls (OpenAI.message choice) = Some [tc] ->
  _execute_tool_call env tc
    (with_conversation_history
       (conversation_history self ++ [user_message user_input])%list self)
  = (Returned v, self2) ->
  is_str v = false ->
  process_message env user_input self
  = (Returned ("Error processing message: " ++ join_error env [v]), self2)
  /\ conversation_history self2
     = (conversation_history self ++ [user_message user_input])%list.
Proof.
  intros Hc Hch Ht He Hv. split.
  - unfold process_message, catch. rewrite process_message_try_unfold, Hc, Hch.
    cbv zeta. rewrite Ht.
    change (for_each (_execute_tool_call env) [tc] ?s)
      with (bind (_execute_tool_call env tc)
              (fun y => bind (ret []) (fun ys => ret (y :: ys))) s).
    unfold bind at 1. rewrite He. unfold bind, ret, str_join.
    destruct v; try discriminate; reflexivity.
  - pose proof (execute_tool_call_history env tc
                  (with_conversation_history
                     (conversation_history self ++ [user_message user_input])%list self))
      as [Hh _].
    rewrite He in Hh. exact Hh.
Qed.

Lemma non_string_result_fails_turn_witness :
  let env := Scenario.asks "get_tool_definitions" "{}" in
  fst (process_message env "tools?" Scenario.fresh)
  = Returned "Error processing message: sequence item 0: expected str instance, list found"
  /\ conversation_history (snd (process_message env "tools?" Scenario.fresh))
     = [user_message "tools?"].
Proof.
  intros env.
  destruct (non_string_result_fails_turn env "tools?" Scenario.fresh
              (Scenario.completion None
                 (Some [Scenario.tool_call "get_tool_definitions" "{}"]))
              {| OpenAI.message :=
                   {| OpenAI.content := None;
                      OpenAI.tool_calls :=
                        Some [Scenario.tool_call "get_tool_definitions" "{}"] |} |}
              (Scenario.tool_call "get_tool_definitions" "{}")
              get_tool_definitions
              (with_conversation_history [user_message "tools?"] Scenario.fresh)
              eq_refl eq_refl eq_refl eq_refl eq_refl) as [E H].
  rewrite E. split; [reflexivity|exact H].
Defined.

(** ** Beyond the claims: a Wolfram query, end to end *)

Lemma single_string_result env user_input self completion choice tc s self2 :
  chat_completions_create env (completion_request self user_input)
  = Returned completion ->
  first_choice completion = Returned choice ->
  OpenAI.tool_calls (OpenAI.message choice) = Some [tc] ->
  _execute_tool_call env tc
    (with_conversation_history
       (conversation_history self ++ [user_message user_input])%list self)
  = (Returned (PStr s), self2) ->
  process_message env user_input self = (Returned s, finish_turn s self2).
Proof.
  intros Hc Hch Ht He.
  unfold process_message, catch. rewrite process_message_try_unfold, Hc, Hch.
  cbv zeta. rewrite Ht.
  change (for_each (_execute_tool_call env) [tc] ?s)
    with (bind (_execute_tool_call env tc)
            (fun y => bind (ret []) (fun ys => ret (y :: ys))) s).
  unfold bind at 1. rewrite He. reflexivity.
Qed.

(** X15.  A turn in which the service asks for [ask_wolfram] with an object
    holding the key [query] sends that query through the client of the
    toolkit and replies with the text of the first result only; with no
    result the reply is "Error querying Wolfram Alpha: " and an empty
    message, and with a failing query it is that prefix and the message.  In
    all three cases the turn is stored as a completed turn. *)
Theorem wolfram_turn env user_input self completion choice tc query :
  chat_completions_create env (completion_request self user_input)
  = Returned completion ->
  first_choice completion = Returned choice ->
  OpenAI.tool_calls (OpenAI.message choice) = Some [tc] ->
  OpenAI.name (OpenAI.function tc) = "ask_wolfram" ->
  json_loads env (OpenAI.arguments (OpenAI.function tc))
  = Returned (PDict [("query", query)]) ->
  let answers := wolfram_query env (wolfram_client (toolkit self)) query in
  let stored reply :=
    with_conversation_history
      (trimmed (conversation_history self
                ++ [user_message user_input; assistant_message reply])%list) self in
  (forall text rest,
     answers = Returned (PStr text :: rest) ->
     process_message env user_input self = (Returned text, stored text))
  /\ (answers = Returned [] ->
      process_message env user_input self
      = (Returned "Error querying Wolfram Alpha: ",
         stored "Error querying Wolfram Alpha: "))
  /\ (forall msg,
        answers = Raised msg ->
        process_message env user_input self
        = (Returned ("Error querying Wolfram Alpha: " ++ msg),
           stored ("Error querying Wolfram Alpha: " ++ msg))).
Proof.
  intros Hc Hch Ht Hn Hj answers stored.
  set (self1 := with_conversation_history
                  (conversation_history self ++ [user_message user_input])%list self).
  assert (E : _execute_tool_call env tc self1
              = (Returned (ask_wolfram env (toolkit self) query), self1)).
  { rewrite execute_tool_call_unfold. cbv zeta. rewrite Hj, Hn. reflexivity. }
  assert (F : forall s,
    ask_wolfram env (toolkit self) query = PStr s ->
    process_message env user_input self = (Returned s, stored s)).
  { intros s Hs. rewrite Hs in E.
    rewrite (single_string_result env user_input self completion choice tc s self1
               Hc Hch Ht E).
    unfold finish_turn, self1, stored, with_conversation_history.
    cbn [conversation_history toolkit system_prompt]. now rewrite <- app_assoc. }
  unfold ask_wolfram, try_except, obind in F. fold answers in F.
  split; [|split].
  - intros text rest Ha. apply F. now rewrite Ha.
  - intros Ha. apply F. now rewrite Ha.
  - intros msg Ha. apply F. now rewrite Ha.
Qed.

Lemma wolfram_turn_witness :
  let env :=
    with_decoder (fun _ => Returned (PDict [("query", PStr "2+2")]))
      (Scenario.asks "ask_wolfram" "ignored") in
  process_message env "what is 2+2?" Scenario.fresh
  = (Returned "4",
     with_conversation_history
       [user_message "what is 2+2?"; assistant_message "4"] Scenario.fresh).
Proof.
  intros env.
  apply (wolfram_turn env "what is 2+2?" Scenario.fresh
           (Scenario.completion None (Some [Scenario.tool_call "ask_wolfram" "ignored"]))
           {| OpenAI.message :=
                {| OpenAI.content := None;
                   OpenAI.tool_calls :=
                     Some [Scenario.tool_call "ask_wolfram" "ignored"] |} |}
           (Scenario.tool_call "ask_wolfram" "ignored") (PStr "2+2")
           eq_refl eq_refl eq_refl eq_refl eq_refl)
    with (rest := []).
  reflexivity.
Defined.

(** ** Beyond the claims: the command loop *)

Section MainFacts.
Variables strip lower : string -> string.

Lemma loop_stops_at_quit env quit after before : forall chatbot,
  lower (strip quit) = "quit" ->
  conversation_loop strip lower (before ++ (env, quit) :: after)%list chatbot
  = conversation_loop strip lower (before ++ [(env, quit)])%list chatbot.
Proof.
  induction before as [|[env1 line] before IH]; intros chatbot Hq;
    cbn [app conversation_loop]; cbv zeta.
  - now rewrite Hq.
  - destruct (String.eqb (lower (strip line)) "quit"); [reflexivity|].
    destruct (process_message env1 (strip line) chatbot) as [[response|msg] chatbot'];
      [|reflexivity].
    now rewrite IH.
Qed.

(** X16.  [main] stops reading at the first line that, stripped and
    lowercased, is "quit": whatever follows that line is neither read nor
    processed, and nothing more is written. *)
Theorem main_stops_at_quit env0 getenv env quit before after :
  lower (strip quit) = "quit" ->
  main strip lower env0 getenv (before ++ (env, quit) :: after)%list
  = main strip lower env0 getenv (before ++ [(env, quit)])%list.
Proof.
  intros Hq. unfold main.
  destruct (Chatbot_init env0 getenv) as [chatbot|msg]; [|reflexivity].
  now rewrite (loop_stops_at_quit env quit after before chatbot Hq).
Qed.


End MainFacts.

Lemma main_stops_at_quit_witness :
  let same := fun s : string => s in
  main same same (Scenario.says "unused") Scenario.getenv
    [(Scenario.says "Hello", "hi"); (Scenario.says "unused", "quit");
     (Scenario.says "never", "more")]
  = (banner ++ turn_output "Hello" ++ [Prompted (newline ++ "You: ")])%list.
Proof.
  intros same.
  exact (eq_trans
           (main_stops_at_quit same same (Scenario.says "unused") Scenario.getenv
              (Scenario.says "unused") "quit" [(Scenario.says "Hello", "hi")]
              [(Scenario.says "never", "more")] eq_refl)
           eq_refl).
Defined.

